(** * Reaktoro: equilibrium solver, phase catalogue and NASA database loader

    A shallow embedding of
      - [Reaktoro/Extensions/Nasa/NasaDatabase.cpp],
      - [Reaktoro/Core/Phases.hpp],
      - [Reaktoro/Equilibrium/EquilibriumSolver.cpp],
    together with the properties of these units that the specification of the
    equilibrium engine relies on.

    Conventions.
      - A C++ function that can throw returns an [Outcome]; a method that
        mutates its object before throwing returns the outcome together with
        the object as it is left behind.
      - [double] values are modelled by rationals ([Q]); the solver itself only
        moves them around and compares one of them with zero.
      - Eigen vectors are lists; [x.head(n)] is [firstn n x]. *)

From Stdlib Require Import List String Ascii Bool Arith Lia QArith.
Import ListNotations.
Local Open Scope string_scope.
Local Open Scope list_scope.

(** ** Exceptions *)

(** The two kinds of C++ exception that occur in the modelled code:
    [std::runtime_error], thrown by the [error] macro, and
    [std::system_error], thrown by the embedded resource file system. *)
Inductive Exception : Type :=
| RuntimeError (what : string)
| SystemError (what : string).

Inductive Outcome (A : Type) : Type :=
| Ok (a : A)
| Raised (e : Exception).

Arguments Ok {A} a.
Arguments Raised {A} e.

Definition bind {A B : Type} (c : Outcome A) (k : A -> Outcome B) : Outcome B :=
  match c with
  | Ok a => k a
  | Raised e => Raised e
  end.

Declare Scope outcome_scope.
Delimit Scope outcome_scope with outcome.
Notation "x <- c ;; k" := (bind c (fun x => k))
  (at level 61, c at next level, right associativity) : outcome_scope.
Notation "c ;;; k" := (bind c (fun _ => k))
  (at level 61, right associativity) : outcome_scope.

(** [error(condition, message...)] of [Reaktoro/Common/Exception.hpp]: throws
    a runtime error carrying the message when the condition holds. *)
Definition error (condition : bool) (message : string) : Outcome unit :=
  if condition then Raised (RuntimeError message) else Ok tt.

Definition raises {A : Type} (c : Outcome A) : Prop :=
  exists e, c = Raised e.

Definition raisesb {A : Type} (c : Outcome A) : bool :=
  match c with
  | Ok _ => false
  | Raised _ => true
  end.

(** [oneof(x, a, b, ...)] of [Reaktoro/Common/Algorithms.hpp]: whether [x]
    equals one of the other arguments. *)
Definition oneof (x : string) (candidates : list string) : bool :=
  existsb (String.eqb x) candidates.

(** ** NASA thermodynamic databases *)

Module Nasa.

Section Loader.

(** The database type with its parser ([NasaUtils::createTextLines],
    [createNasaSpeciesVector], [convertSpecies] followed by [addSpecies]);
    the parser works on the text of the stream. *)
Variable NasaDatabase : Type.
Variable parseSpecies : string -> Outcome NasaDatabase.

(** The resource file system compiled into the library by CMakeRC: the
    contents of a path, if a file was embedded under it. *)
Variable embedded : string -> option string.

Definition fs_open (path : string) : Outcome string :=
  match embedded path with
  | Some contents => Ok contents
  | None => Raised (SystemError path)
  end.

Definition newline : string := String (ascii_of_nat 10) EmptyString.

Definition supportedNames : list string := ["cea"; "cea-improved"; "burcat"].

Definition embeddedPath (name : string) : string :=
  "databases/nasa/" ++ name ++ ".dat".

(** Return the contents of the embedded NASA database with given name. *)
Definition getNasaDatabaseContent (name : string) : Outcome string :=
  (error (negb (oneof name supportedNames))
     ("Could not load embedded NASA database file with name `" ++ name ++ "`. " ++
      "The currently supported names are: " ++ newline ++
      "    - cea    " ++ newline ++
      "    - cea-improved " ++ newline ++
      "    - burcat " ++ newline ++
      "") ;;;
   fs_open (embeddedPath name))%outcome.

Definition fromStream (stream : string) : Outcome NasaDatabase :=
  parseSpecies stream.

Definition withName (name : string) : Outcome NasaDatabase :=
  (content <- getNasaDatabaseContent name ;;
   fromStream content)%outcome.

(** [NasaDatabase(String name)] delegates to [withName]. *)
Definition NasaDatabase_named (name : string) : Outcome NasaDatabase :=
  withName name.

End Loader.

Arguments fromStream {NasaDatabase} parseSpecies stream.
Arguments withName {NasaDatabase} parseSpecies embedded name.
Arguments NasaDatabase_named {NasaDatabase} parseSpecies embedded name.

Section Files.

Variable NasaDatabase : Type.
Variable parseSpecies : string -> Outcome NasaDatabase.

(** The files that can be opened for reading, with their contents. *)
Variable files : string -> option string.

(** [NasaDatabase::fromFile]: the stream is open where the file could be
    opened. *)
Definition fromFile (path : string) : Outcome NasaDatabase :=
  match files path with
  | None => Raised (RuntimeError ("Could not open NASA database file with given path: " ++ path))
  | Some contents => fromStream parseSpecies contents
  end.

End Files.

Arguments fromFile {NasaDatabase} parseSpecies files path.

End Nasa.

(** ** Phases of a chemical system *)

Module Phases.

Definition Strings := list string.

Inductive StateOfMatter : Type :=
| StateOfMatter_Solid
| StateOfMatter_Liquid
| StateOfMatter_Gas.

Inductive AggregateState : Type :=
| AggregateState_Undefined
| AggregateState_Aqueous
| AggregateState_Gas
| AggregateState_Liquid
| AggregateState_Solid.

(** The activity models that the header names, and any other one a caller
    may install, identified by a label. *)
Inductive ActivityModel : Type :=
| ActivityModelNone
| ActivityModelIdealAqueous
| ActivityModelIdealGas
| ActivityModelIdealSolution
| ActivityModelOther (label : string).

(** The base type for all other classes defining more specific phases. *)
Record GenericPhase : Type := mkGenericPhase {
  phasename : string;
  stateofmatter : StateOfMatter;
  aggregatestate : AggregateState;
  names : Strings;
  symbols : Strings;
  activity_model : ActivityModel;
  ideal_activity_model : ActivityModel
}.

Definition GenericPhase_default : GenericPhase :=
  {| phasename := "";
     stateofmatter := StateOfMatter_Solid;
     aggregatestate := AggregateState_Undefined;
     names := [];
     symbols := [];
     activity_model := ActivityModelNone;
     ideal_activity_model := ActivityModelNone |}.

Definition GenericPhase_species (species : Strings) : GenericPhase :=
  {| phasename := "";
     stateofmatter := StateOfMatter_Solid;
     aggregatestate := AggregateState_Undefined;
     names := species;
     symbols := [];
     activity_model := ActivityModelNone;
     ideal_activity_model := ActivityModelNone |}.

Definition setName (name : string) (ph : GenericPhase) : GenericPhase :=
  {| phasename := name;
     stateofmatter := stateofmatter ph;
     aggregatestate := aggregatestate ph;
     names := names ph;
     symbols := symbols ph;
     activity_model := activity_model ph;
     ideal_activity_model := ideal_activity_model ph |}.

Definition setStateOfMatter (option : StateOfMatter) (ph : GenericPhase) : GenericPhase :=
  {| phasename := phasename ph;
     stateofmatter := option;
     aggregatestate := aggregatestate ph;
     names := names ph;
     symbols := symbols ph;
     activity_model := activity_model ph;
     ideal_activity_model := ideal_activity_model ph |}.

Definition setAggregateState (option : AggregateState) (ph : GenericPhase) : GenericPhase :=
  {| phasename := phasename ph;
     stateofmatter := stateofmatter ph;
     aggregatestate := option;
     names := names ph;
     symbols := symbols ph;
     activity_model := activity_model ph;
     ideal_activity_model := ideal_activity_model ph |}.

Definition setActivityModel (model : ActivityModel) (ph : GenericPhase) : GenericPhase :=
  {| phasename := phasename ph;
     stateofmatter := stateofmatter ph;
     aggregatestate := aggregatestate ph;
     names := names ph;
     symbols := symbols ph;
     activity_model := model;
     ideal_activity_model := ideal_activity_model ph |}.

Definition setIdealActivityModel (model : ActivityModel) (ph : GenericPhase) : GenericPhase :=
  {| phasename := phasename ph;
     stateofmatter := stateofmatter ph;
     aggregatestate := aggregatestate ph;
     names := names ph;
     symbols := symbols ph;
     activity_model := activity_model ph;
     ideal_activity_model := model |}.

Definition name (ph : GenericPhase) : string := phasename ph.

(** [AqueousSolution::initialize], [GaseousSolution::initialize] and
    [LiquidSolution::initialize], applied by the constructors of the classes. *)
Definition initializeAqueousSolution (ph : GenericPhase) : GenericPhase :=
  setIdealActivityModel ActivityModelIdealAqueous
    (setActivityModel ActivityModelIdealAqueous
       (setAggregateState AggregateState_Aqueous
          (setStateOfMatter StateOfMatter_Liquid
             (setName "AqueousSolution" ph)))).

Definition initializeGaseousSolution (ph : GenericPhase) : GenericPhase :=
  setIdealActivityModel ActivityModelIdealGas
    (setActivityModel ActivityModelIdealGas
       (setAggregateState AggregateState_Gas
          (setStateOfMatter StateOfMatter_Gas
             (setName "GaseousSolution" ph)))).

Definition initializeLiquidSolution (ph : GenericPhase) : GenericPhase :=
  setIdealActivityModel ActivityModelIdealSolution
    (setActivityModel ActivityModelIdealSolution
       (setAggregateState AggregateState_Liquid
          (setStateOfMatter StateOfMatter_Liquid
             (setName "LiquidSolution" ph)))).

Definition AqueousSolution : GenericPhase :=
  initializeAqueousSolution GenericPhase_default.

Definition AqueousSolution_species (species : Strings) : GenericPhase :=
  initializeAqueousSolution (GenericPhase_species species).

Definition GaseousSolution : GenericPhase :=
  initializeGaseousSolution GenericPhase_default.

Definition GaseousSolution_species (species : Strings) : GenericPhase :=
  initializeGaseousSolution (GenericPhase_species species).

Definition LiquidSolution_species (species : Strings) : GenericPhase :=
  initializeLiquidSolution (GenericPhase_species species).

(** The base type for all other classes defining generic pure phases at once. *)
Record GenericPhases : Type := mkGenericPhases {
  gs_stateofmatter : StateOfMatter;
  gs_aggregatestate : AggregateState;
  gs_names : Strings;
  gs_symbols : Strings;
  gs_activity_model : ActivityModel;
  gs_ideal_activity_model : ActivityModel
}.

(** [Minerals(species)]: the constructor followed by [Minerals::initialize]. *)
Definition Minerals_species (species : Strings) : GenericPhases :=
  {| gs_stateofmatter := StateOfMatter_Solid;
     gs_aggregatestate := AggregateState_Solid;
     gs_names := species;
     gs_symbols := [];
     gs_activity_model := ActivityModelIdealSolution;
     gs_ideal_activity_model := ActivityModelIdealSolution |}.

(** One argument of the variadic constructor of [Phases]: the static
    assertion accepts objects derived from [GenericPhase] or [GenericPhases]. *)
Inductive PhaseArg : Type :=
| OnePhase (phase : GenericPhase)
| ManyPhases (phases : GenericPhases).

Definition arg_elements (arg : PhaseArg) : Strings :=
  match arg with
  | OnePhase ph => symbols ph
  | ManyPhases phs => gs_symbols phs
  end.

Definition arg_species (arg : PhaseArg) : Strings :=
  match arg with
  | OnePhase ph => names ph
  | ManyPhases phs => gs_names phs
  end.

Section Catalogue.

(** What the header takes from other units: the database with the lookup
    [database.species().withNames(names)] (here already projected on the
    element symbols of each species found), [merge] of [Algorithms.hpp],
    [makeunique] of [StringUtils.hpp], and the two [convert] methods whose
    bodies are in [Phases.cpp]. *)
Variable Database : Type.
Variable Phase : Type.
Variable speciesElementSymbols : Database -> Strings -> list Strings.
Variable merge : Strings -> Strings -> Strings.
Variable makeunique : Strings -> string -> Strings.
Variable GenericPhases_convert : Database -> Strings -> GenericPhases -> list GenericPhase.
Variable GenericPhase_convert : Database -> Strings -> GenericPhase -> Phase.

Record Phases : Type := mkPhases {
  database : Database;
  genericphases : list GenericPhase;
  elements : Strings
}.

(** Collect the element symbols in a GenericPhase or GenericPhases object. *)
Definition collectElements1 (arg : PhaseArg) (self : Phases) : Phases :=
  let elements1 :=
    if (0 <? List.length (arg_elements arg))%nat
    then merge (elements self) (arg_elements arg)
    else elements self in
  let elements2 :=
    if (0 <? List.length (arg_species arg))%nat
    then fold_left merge (speciesElementSymbols (database self) (arg_species arg)) elements1
    else elements1 in
  {| database := database self;
     genericphases := genericphases self;
     elements := elements2 |}.

(** Collect the element symbols in one or more objects. *)
Fixpoint collectElements (arg : PhaseArg) (args : list PhaseArg) (self : Phases) : Phases :=
  let self1 := collectElements1 arg self in
  match args with
  | [] => self1
  | arg' :: args' => collectElements arg' args' self1
  end.

(** Append all GenericPhase objects into the Phases container. *)
Definition append_vec (phases : list GenericPhase) (self : Phases) : Phases :=
  {| database := database self;
     genericphases := genericphases self ++ phases;
     elements := elements self |}.

(** The three overloads of [append], selected by the type of the argument. *)
Definition append (arg : PhaseArg) (self : Phases) : Phases :=
  match arg with
  | OnePhase ph =>
      {| database := database self;
         genericphases := genericphases self ++ [ph];
         elements := elements self |}
  | ManyPhases phs =>
      append_vec (GenericPhases_convert (database self) (elements self) phs) self
  end.

Fixpoint appendPhases (arg : PhaseArg) (args : list PhaseArg) (self : Phases) : Phases :=
  let self1 := append arg self in
  match args with
  | [] => self1
  | arg' :: args' => appendPhases arg' args' self1
  end.

(** The loop of [fixDuplicatePhaseNames]: the phase met at position [i]
    takes [phasenames[i]]. *)
Fixpoint renamePhases (i : nat) (phasenames : Strings) (phases : list GenericPhase)
  : list GenericPhase :=
  match phases with
  | [] => []
  | ph :: rest => setName (nth i phasenames "") ph :: renamePhases (S i) phasenames rest
  end.

(** Replace duplicate phase names with unique names. *)
Definition fixDuplicatePhaseNames (self : Phases) : Phases :=
  let phasenames := map name (genericphases self) in
  let phasenames := makeunique phasenames "!" in
  {| database := database self;
     genericphases := renamePhases 0 phasenames (genericphases self);
     elements := elements self |}.

(** Construct a Phases object with given GenericPhase and GenericPhases
    objects; the constructor needs at least one of them. *)
Definition Phases_new (db : Database) (arg : PhaseArg) (args : list PhaseArg) : Phases :=
  let self := {| database := db; genericphases := []; elements := [] |} in
  let self := collectElements arg args self in
  let self := appendPhases arg args self in
  fixDuplicatePhaseNames self.

(** Convert this Phases object into a vector of Phase objects. *)
Definition to_VecPhase (self : Phases) : list Phase :=
  map (GenericPhase_convert (database self) (elements self)) (genericphases self).

End Catalogue.

Arguments database {Database} p.
Arguments genericphases {Database} p.
Arguments elements {Database} p.
Arguments fixDuplicatePhaseNames {Database} makeunique self.
Arguments to_VecPhase {Database Phase} GenericPhase_convert self.

(** Modelled from the spec: [makeunique(words, suffix)] of
    [Reaktoro/Common/StringUtils], whose body is not among the sources.  The
    header states its purpose ("replace duplicate phase names with unique
    names") and passes the suffix "!": going through the words in order, a
    word that equals one already produced gets the suffix appended until it
    is new.  At most as many suffixes as there are earlier words are needed,
    which bounds the search. *)
Fixpoint freshen (fuel : nat) (suffix : string) (seen : Strings) (word : string) : string :=
  match fuel with
  | O => word
  | S fuel' =>
      if existsb (String.eqb word) seen
      then freshen fuel' suffix seen (word ++ suffix)
      else word
  end.

Fixpoint makeunique_from (seen : Strings) (words : Strings) (suffix : string) : Strings :=
  match words with
  | [] => []
  | w :: rest =>
      let u := freshen (List.length seen) suffix seen w in
      u :: makeunique_from (seen ++ [u]) rest suffix
  end.

Definition makeunique_model (words : Strings) (suffix : string) : Strings :=
  makeunique_from [] words suffix.

(** How many of the words seen so far are at least [n] characters long: the
    measure that bounds the search of [freshen]. *)
Definition longer (n : nat) (seen : Strings) : nat :=
  List.length (filter (fun w => (n <=? String.length w)%nat) seen).

(** The auxiliary type used to specify phase species to be determined from
    element symbols; [Speciate_add] is its operator [+=]. *)
Record Speciate : Type := mkSpeciate {
  speciate_symbols : Strings
}.

Definition speciate (symbols0 : Strings) : Speciate :=
  {| speciate_symbols := symbols0 |}.

Definition Speciate_add (merge : Strings -> Strings -> Strings)
    (self : Speciate) (othersymbols : Strings) : Speciate :=
  {| speciate_symbols := merge (speciate_symbols self) othersymbols |}.

(** [GenericPhase(const Speciate& elements)]. *)
Definition GenericPhase_elements (elements0 : Speciate) : GenericPhase :=
  {| phasename := "";
     stateofmatter := StateOfMatter_Solid;
     aggregatestate := AggregateState_Undefined;
     names := [];
     symbols := speciate_symbols elements0;
     activity_model := ActivityModelNone;
     ideal_activity_model := ActivityModelNone |}.

(** [AqueousSolution(Speciate elements)], which adds H and O to the
    elements it is given, and [GaseousSolution(const Speciate& elements)]. *)
Definition AqueousSolution_speciate (merge : Strings -> Strings -> Strings)
    (elements0 : Speciate) : GenericPhase :=
  initializeAqueousSolution
    (GenericPhase_elements (Speciate_add merge elements0 ["H"; "O"])).

Definition GaseousSolution_speciate (elements0 : Speciate) : GenericPhase :=
  initializeGaseousSolution (GenericPhase_elements elements0).

(** The phases that one argument of the constructor stands for, given the
    conversion of [GenericPhases] objects and the element symbols passed to
    it. *)
Definition phasesOf {Database : Type}
    (GenericPhases_convert : Database -> Strings -> GenericPhases -> list GenericPhase)
    (db : Database) (symbols0 : Strings) (arg : PhaseArg) : list GenericPhase :=
  match arg with
  | OnePhase ph => [ph]
  | ManyPhases phs => GenericPhases_convert db symbols0 phs
  end.

End Phases.

(** ** State and exceptions together *)

(** A method of an object of type [S]: it may change the object and then
    either return or throw; what it did to the object before throwing stays. *)
Definition Eff (S A : Type) : Type := S -> Outcome A * S.

Definition eret {S A : Type} (a : A) : Eff S A := fun s => (Ok a, s).

Definition ebind {S A B : Type} (m : Eff S A) (k : A -> Eff S B) : Eff S B :=
  fun s =>
    match m s with
    | (Ok a, s') => k a s'
    | (Raised e, s') => (Raised e, s')
    end.

Definition lift {S A : Type} (c : Outcome A) : Eff S A := fun s => (c, s).

Definition modify {S : Type} (f : S -> S) : Eff S unit := fun s => (Ok tt, f s).

Definition when {S : Type} (b : bool) (m : Eff S unit) : Eff S unit :=
  if b then m else eret tt.

Declare Scope eff_scope.
Delimit Scope eff_scope with eff.
Notation "x <- c ;; k" := (ebind c (fun x => k))
  (at level 61, c at next level, right associativity) : eff_scope.
Notation "c ;;; k" := (ebind c (fun _ => k))
  (at level 61, right associativity) : eff_scope.

(** ** The equilibrium solver *)

Module Equilibrium.

Definition VectorXd := list Q.
Definition MatrixXd := list (list Q).

Definition zeros (n : nat) : VectorXd := repeat 0%Q n.

(** [x.head(n)] and the assignment [x.head(n) = v].  Eigen requires
    [n <= x.size()] and [v.size() = n]; the entries from [n] on are kept. *)
Definition head (n : nat) (x : VectorXd) : VectorXd := firstn n x.

Definition assign_head (n : nat) (x v : VectorXd) : VectorXd :=
  firstn n v ++ skipn n x.

(** *** The optimizer library (Optima) *)

(** [Optima::Dims]: the numbers of primal variables, of parameters and of
    linear equality constraints; all zero in a default-constructed object. *)
Record OptimaDims : Type := mkOptimaDims {
  dims_x : nat;
  dims_p : nat;
  dims_be : nat
}.

Definition OptimaDims_default : OptimaDims :=
  {| dims_x := 0; dims_p := 0; dims_be := 0 |}.

(** [Optima::State], the iterate of the optimizer: its dimensions, the primal
    variables [x], the parameters [p] and the multipliers [y] and [z]. *)
Record OptimaState : Type := mkOptimaState {
  st_dims : OptimaDims;
  st_x : VectorXd;
  st_p : VectorXd;
  st_y : VectorXd;
  st_z : VectorXd
}.

(** [Optima::State(dims)]: every vector has the size the dimensions give it
    and holds zeros. *)
Definition OptimaState_new (dims : OptimaDims) : OptimaState :=
  {| st_dims := dims;
     st_x := zeros (dims_x dims);
     st_p := zeros (dims_p dims);
     st_y := zeros (dims_be dims);
     st_z := zeros (dims_x dims) |}.

Definition OptimaState_default : OptimaState := OptimaState_new OptimaDims_default.

Definition set_st_x (x : VectorXd) (s : OptimaState) : OptimaState :=
  {| st_dims := st_dims s; st_x := x; st_p := st_p s; st_y := st_y s; st_z := st_z s |}.

Record ObjectiveResult : Type := mkObjectiveResult {
  res_f : Q;
  res_fx : VectorXd;
  res_fxx : MatrixXd;
  res_fxp : MatrixXd;
  res_succeeded : bool
}.

Record ObjectiveOptions : Type := mkObjectiveOptions {
  eval_fxx : bool;
  eval_fxp : bool
}.

Record ConstraintResult : Type := mkConstraintResult {
  res_val : VectorXd;
  res_ddx : MatrixXd;
  res_ddp : MatrixXd;
  cres_succeeded : bool
}.

Record ConstraintOptions : Type := mkConstraintOptions {
  eval_ddx : bool;
  eval_ddp : bool
}.

Definition set_res_f (v : Q) (r : ObjectiveResult) : ObjectiveResult :=
  {| res_f := v; res_fx := res_fx r; res_fxx := res_fxx r; res_fxp := res_fxp r;
     res_succeeded := res_succeeded r |}.

Definition set_res_fx (v : VectorXd) (r : ObjectiveResult) : ObjectiveResult :=
  {| res_f := res_f r; res_fx := v; res_fxx := res_fxx r; res_fxp := res_fxp r;
     res_succeeded := res_succeeded r |}.

Definition set_res_fxx (v : MatrixXd) (r : ObjectiveResult) : ObjectiveResult :=
  {| res_f := res_f r; res_fx := res_fx r; res_fxx := v; res_fxp := res_fxp r;
     res_succeeded := res_succeeded r |}.

Definition set_res_fxp (v : MatrixXd) (r : ObjectiveResult) : ObjectiveResult :=
  {| res_f := res_f r; res_fx := res_fx r; res_fxx := res_fxx r; res_fxp := v;
     res_succeeded := res_succeeded r |}.

Definition set_res_succeeded (v : bool) (r : ObjectiveResult) : ObjectiveResult :=
  {| res_f := res_f r; res_fx := res_fx r; res_fxx := res_fxx r; res_fxp := res_fxp r;
     res_succeeded := v |}.

Definition set_res_val (v : VectorXd) (r : ConstraintResult) : ConstraintResult :=
  {| res_val := v; res_ddx := res_ddx r; res_ddp := res_ddp r;
     cres_succeeded := cres_succeeded r |}.

Definition set_res_ddx (v : MatrixXd) (r : ConstraintResult) : ConstraintResult :=
  {| res_val := res_val r; res_ddx := v; res_ddp := res_ddp r;
     cres_succeeded := cres_succeeded r |}.

Definition set_res_ddp (v : MatrixXd) (r : ConstraintResult) : ConstraintResult :=
  {| res_val := res_val r; res_ddx := res_ddx r; res_ddp := v;
     cres_succeeded := cres_succeeded r |}.

Definition set_cres_succeeded (v : bool) (r : ConstraintResult) : ConstraintResult :=
  {| res_val := res_val r; res_ddx := res_ddx r; res_ddp := res_ddp r;
     cres_succeeded := v |}.

(** The two callbacks of a problem: the optimizer passes the result object by
    reference, the point [x], the parameters [p] and what it needs computed. *)
Definition ObjectiveFunction : Type :=
  VectorXd -> VectorXd -> ObjectiveOptions -> Eff ObjectiveResult unit.

Definition ConstraintFunction : Type :=
  VectorXd -> VectorXd -> ConstraintOptions -> Eff ConstraintResult unit.

Record OptimaProblem : Type := mkOptimaProblem {
  pb_dims : OptimaDims;
  pb_f : ObjectiveFunction;
  pb_v : ConstraintFunction;
  pb_Aex : MatrixXd;
  pb_Aep : MatrixXd;
  pb_be : VectorXd;
  pb_xlower : VectorXd;
  pb_xupper : VectorXd
}.

(** A [std::function] that holds no target throws when it is called. *)
Definition bad_function_call {S : Type} : Eff S unit :=
  lift (Raised (RuntimeError "bad_function_call")).

(** [Optima::Problem(dims)]: no callbacks yet, empty matrices and vectors. *)
Definition OptimaProblem_new (dims : OptimaDims) : OptimaProblem :=
  {| pb_dims := dims;
     pb_f := fun _ _ _ => bad_function_call;
     pb_v := fun _ _ _ => bad_function_call;
     pb_Aex := [];
     pb_Aep := [];
     pb_be := [];
     pb_xlower := [];
     pb_xupper := [] |}.

Record OptimaResult : Type := mkOptimaResult {
  result_succeeded : bool;
  result_iterations : nat
}.

Record OutputOptions : Type := mkOutputOptions {
  active : bool;
  xprefix : string;
  xnames : list string
}.

Record OptimaOptions : Type := mkOptimaOptions {
  output : OutputOptions
}.

(** *** The chemical system and the equilibrium problem *)

Record Species : Type := mkSpecies {
  species_name : string
}.

Record ChemicalSystem : Type := mkChemicalSystem {
  species : list Species
}.

Record EquilibriumOptions : Type := mkEquilibriumOptions {
  epsilon : Q;
  optima : OptimaOptions
}.

Inductive ControlVariable : Type :=
| Temperature
| Pressure
| Custom (name : string).

Definition ControlVariable_eqb (a b : ControlVariable) : bool :=
  match a, b with
  | Temperature, Temperature => true
  | Pressure, Pressure => true
  | Custom n, Custom m => String.eqb n m
  | _, _ => false
  end.

(** Modelled from the spec: [EquilibriumSpecs], whose source is not among the
    files.  A specification is built from a chemical system and holds an
    ordered list of control variables and an ordered list of constraint
    equations; "temperature and pressure are control variables present by
    default", and [temperature()] and [pressure()] declare the built-in
    variable, which changes nothing where it is present already. *)
Record EquilibriumSpecs : Type := mkEquilibriumSpecs {
  specs_system : ChemicalSystem;
  controlVariables : list ControlVariable;
  constraintEquations : list string
}.

Definition EquilibriumSpecs_new (system : ChemicalSystem) : EquilibriumSpecs :=
  {| specs_system := system;
     controlVariables := [Temperature; Pressure];
     constraintEquations := [] |}.

Definition declared (v : ControlVariable) (specs : EquilibriumSpecs) : bool :=
  existsb (ControlVariable_eqb v) (controlVariables specs).

Definition declare (v : ControlVariable) (specs : EquilibriumSpecs) : EquilibriumSpecs :=
  if declared v specs then specs
  else {| specs_system := specs_system specs;
          controlVariables := controlVariables specs ++ [v];
          constraintEquations := constraintEquations specs |}.

Definition specs_temperature (specs : EquilibriumSpecs) : EquilibriumSpecs :=
  declare Temperature specs.

Definition specs_pressure (specs : EquilibriumSpecs) : EquilibriumSpecs :=
  declare Pressure specs.

(** Return an EquilibriumSpecs object that represent the specifications of
    classic Gibbs energy minimization problem. *)
Definition defaultEquilibriumSpecs (system : ChemicalSystem) : EquilibriumSpecs :=
  let specs := EquilibriumSpecs_new system in
  let specs := specs_temperature specs in
  let specs := specs_pressure specs in
  specs.

(** [EquilibriumDims]: the numbers of species, of primal variables, of
    parameters and of conservation constraints. *)
Record EquilibriumDims : Type := mkEquilibriumDims {
  Nn : nat;
  Nx : nat;
  Np : nat;
  Nc : nat
}.

(** Modelled from the spec: [EquilibriumConditions], whose source is not among
    the files.  It is bound to one specification and stores a value for the
    declared control variables; [set] "fails with UnknownControlVariable if
    name was not declared in the associated Specification", and the setters
    for temperature and pressure "are semantic sugar over set". *)
Record EquilibriumConditions : Type := mkEquilibriumConditions {
  cond_specs : EquilibriumSpecs;
  cond_values : list (ControlVariable * Q)
}.

Definition EquilibriumConditions_new (specs : EquilibriumSpecs) : EquilibriumConditions :=
  {| cond_specs := specs; cond_values := [] |}.

Definition conditions_set (v : ControlVariable) (value : Q) (c : EquilibriumConditions)
  : Outcome EquilibriumConditions :=
  if declared v (cond_specs c)
  then Ok {| cond_specs := cond_specs c;
             cond_values :=
               (v, value) ::
               filter (fun e => negb (ControlVariable_eqb v (fst e))) (cond_values c) |}
  else Raised (RuntimeError "UnknownControlVariable").

Definition conditions_temperature (value : Q) (c : EquilibriumConditions)
  : Outcome EquilibriumConditions :=
  conditions_set Temperature value c.

Definition conditions_pressure (value : Q) (c : EquilibriumConditions)
  : Outcome EquilibriumConditions :=
  conditions_set Pressure value c.

Definition conditions_value (v : ControlVariable) (c : EquilibriumConditions) : option Q :=
  match find (fun e => ControlVariable_eqb v (fst e)) (cond_values c) with
  | Some e => Some (snd e)
  | None => None
  end.

Inductive Restriction : Type :=
| CannotIncrease
| CannotDecrease
| CannotReactBeyond (value : Q).

(** Modelled from the spec: [EquilibriumRestrictions], whose source is not
    among the files: a "set of (species index -> lower/upper bound)
    overrides", none of them in a freshly constructed object, for which
    "defaults are [0, +oo) for every species". *)
Record EquilibriumRestrictions : Type := mkEquilibriumRestrictions {
  restr_system : ChemicalSystem;
  restr_overrides : list (nat * Restriction)
}.

Definition EquilibriumRestrictions_new (system : ChemicalSystem) : EquilibriumRestrictions :=
  {| restr_system := system; restr_overrides := [] |}.

(** The part of [ChemicalState] the solver reads and writes; the optimizer
    iterate is what [state.equilibrium()] keeps. *)
Record ChemicalState : Type := mkChemicalState {
  state_system : ChemicalSystem;
  temperature : Q;
  pressure : Q;
  speciesAmounts : VectorXd;
  optimaState : OptimaState
}.

Definition set_speciesAmounts (n : VectorXd) (s : ChemicalState) : ChemicalState :=
  {| state_system := state_system s; temperature := temperature s; pressure := pressure s;
     speciesAmounts := n; optimaState := optimaState s |}.

Definition setOptimaState (o : OptimaState) (s : ChemicalState) : ChemicalState :=
  {| state_system := state_system s; temperature := temperature s; pressure := pressure s;
     speciesAmounts := speciesAmounts s; optimaState := o |}.

(** [EquilibriumSetup] as the solver sees it: built from a specification, it
    keeps the options it is given. *)
Record EquilibriumSetup : Type := mkEquilibriumSetup {
  setup_specs : EquilibriumSpecs;
  setup_options : EquilibriumOptions
}.

Definition setup_setOptions (opts : EquilibriumOptions) (s : EquilibriumSetup)
  : EquilibriumSetup :=
  {| setup_specs := setup_specs s; setup_options := opts |}.

Record EquilibriumResult : Type := mkEquilibriumResult {
  result_optima : OptimaResult
}.

(** *** What the solver calls in other units *)

(** The methods of [EquilibriumSetup] that evaluate the thermodynamic model
    (they may throw), the methods that assemble the linear constraints and the
    bounds, [EquilibriumConditions::params], the constructor of
    [EquilibriumDims], the default-constructed options, and
    [Optima::Solver::solve], which updates the iterate it is given and
    returns its result unless a callback or the solver itself throws. *)
Class Collaborators : Type := {
  default_options : EquilibriumOptions;
  EquilibriumDims_new : EquilibriumSpecs -> EquilibriumDims;
  conditions_params : EquilibriumConditions -> Outcome VectorXd;
  evalObjectiveValue : EquilibriumSetup -> VectorXd -> VectorXd -> VectorXd -> Outcome Q;
  evalObjectiveGradX : EquilibriumSetup -> VectorXd -> VectorXd -> VectorXd -> Outcome VectorXd;
  evalObjectiveHessianX : EquilibriumSetup -> VectorXd -> VectorXd -> VectorXd -> Outcome MatrixXd;
  evalObjectiveHessianP : EquilibriumSetup -> VectorXd -> VectorXd -> VectorXd -> Outcome MatrixXd;
  evalEquationConstraints : EquilibriumSetup -> VectorXd -> VectorXd -> VectorXd -> Outcome VectorXd;
  evalEquationConstraintsGradX : EquilibriumSetup -> VectorXd -> VectorXd -> VectorXd -> Outcome MatrixXd;
  evalEquationConstraintsGradP : EquilibriumSetup -> VectorXd -> VectorXd -> VectorXd -> Outcome MatrixXd;
  assembleMatrixAex : EquilibriumSetup -> MatrixXd;
  assembleMatrixAep : EquilibriumSetup -> MatrixXd;
  assembleVectorBe : EquilibriumSetup -> EquilibriumConditions -> ChemicalState -> VectorXd;
  assembleLowerBoundsVector : EquilibriumSetup -> EquilibriumRestrictions -> ChemicalState -> VectorXd;
  assembleUpperBoundsVector : EquilibriumSetup -> EquilibriumRestrictions -> ChemicalState -> VectorXd;
  optsolver_solve : OptimaProblem -> OptimaState -> Outcome OptimaResult * OptimaState
}.

Section Solver.

Context {C : Collaborators}.

(** *** [EquilibriumSolver::Impl] *)

Record Impl : Type := mkImpl {
  system : ChemicalSystem;
  specs : EquilibriumSpecs;
  dims : EquilibriumDims;
  setup : EquilibriumSetup;
  options : EquilibriumOptions;
  n0 : VectorXd;
  optdims : OptimaDims;
  optproblem : OptimaProblem;
  optstate : OptimaState
}.

Definition set_setup (v : EquilibriumSetup) (self : Impl) : Impl :=
  {| system := system self; specs := specs self; dims := dims self; setup := v;
     options := options self; n0 := n0 self; optdims := optdims self;
     optproblem := optproblem self; optstate := optstate self |}.

Definition set_options (v : EquilibriumOptions) (self : Impl) : Impl :=
  {| system := system self; specs := specs self; dims := dims self; setup := setup self;
     options := v; n0 := n0 self; optdims := optdims self;
     optproblem := optproblem self; optstate := optstate self |}.

Definition set_optdims (v : OptimaDims) (self : Impl) : Impl :=
  {| system := system self; specs := specs self; dims := dims self; setup := setup self;
     options := options self; n0 := n0 self; optdims := v;
     optproblem := optproblem self; optstate := optstate self |}.

Definition set_optproblem (v : OptimaProblem) (self : Impl) : Impl :=
  {| system := system self; specs := specs self; dims := dims self; setup := setup self;
     options := options self; n0 := n0 self; optdims := optdims self;
     optproblem := v; optstate := optstate self |}.

Definition set_optstate (v : OptimaState) (self : Impl) : Impl :=
  {| system := system self; specs := specs self; dims := dims self; setup := setup self;
     options := options self; n0 := n0 self; optdims := optdims self;
     optproblem := optproblem self; optstate := v |}.

(** The assignments to [options.optima.output] in [setOptions]. *)
Definition set_xprefix (prefix : string) (o : EquilibriumOptions) : EquilibriumOptions :=
  {| epsilon := epsilon o;
     optima := {| output := {| active := active (output (optima o));
                               xprefix := prefix;
                               xnames := xnames (output (optima o)) |} |} |}.

Definition push_back_xname (n : string) (o : EquilibriumOptions) : EquilibriumOptions :=
  {| epsilon := epsilon o;
     optima := {| output := {| active := active (output (optima o));
                               xprefix := xprefix (output (optima o));
                               xnames := xnames (output (optima o)) ++ [n] |} |} |}.

(** Set the options of the equilibrium solver. *)
Definition setOptions (opts : EquilibriumOptions) : Eff Impl unit :=
  (modify (set_options opts) ;;;
   modify (fun self => set_setup (setup_setOptions (options self) (setup self)) self) ;;;
   (fun self =>
      lift (error (Qle_bool (epsilon (options self)) 0)
              "EquilibriumOptions::epsilon cannot be zero or negative.") self) ;;;
   (fun self =>
      when (active (output (optima (options self))))
        (modify (set_options
                   (fold_left (fun o sp => push_back_xname (species_name sp) o)
                      (species (system self))
                      (set_xprefix "n" (options self))))) self))%eff.

(** Construct a Impl instance with given EquilibriumSpecs object. *)
Definition Impl_new (specs0 : EquilibriumSpecs) : Outcome Impl :=
  let self :=
    {| system := specs_system specs0;
       specs := specs0;
       dims := EquilibriumDims_new specs0;
       setup := {| setup_specs := specs0; setup_options := default_options |};
       options := default_options;
       n0 := [];
       optdims := OptimaDims_default;
       optproblem := OptimaProblem_new OptimaDims_default;
       optstate := OptimaState_default |} in
  match setOptions (options self) self with
  | (Ok _, self') => Ok self'
  | (Raised e, _) => Raised e
  end.

(** The objective function handed to the optimizer.  The lambda refers to
    the [setup] member of the solver, which no statement of [solve] changes,
    and holds its own copy of [params]. *)
Definition objective (setup0 : EquilibriumSetup) (params : VectorXd) : ObjectiveFunction :=
  fun x p opts =>
    (f <- lift (evalObjectiveValue setup0 x p params) ;;
     modify (set_res_f f) ;;;
     fx <- lift (evalObjectiveGradX setup0 x p params) ;;
     modify (set_res_fx fx) ;;;
     when (eval_fxx opts)
       (fxx <- lift (evalObjectiveHessianX setup0 x p params) ;;
        modify (set_res_fxx fxx)) ;;;
     when (eval_fxp opts)
       (fxp <- lift (evalObjectiveHessianP setup0 x p params) ;;
        modify (set_res_fxp fxp)) ;;;
     modify (set_res_succeeded true))%eff.

(** The external constraint function handed to the optimizer. *)
Definition constraint (setup0 : EquilibriumSetup) (params : VectorXd) : ConstraintFunction :=
  fun x p opts =>
    (val <- lift (evalEquationConstraints setup0 x p params) ;;
     modify (set_res_val val) ;;;
     when (eval_ddx opts)
       (ddx <- lift (evalEquationConstraintsGradX setup0 x p params) ;;
        modify (set_res_ddx ddx)) ;;;
     when (eval_ddp opts)
       (ddp <- lift (evalEquationConstraintsGradP setup0 x p params) ;;
        modify (set_res_ddp ddp)) ;;;
     modify (set_cres_succeeded true))%eff.

(** Update the optimization problem before a new equilibrium calculation. *)
Definition updateOptProblem (state0 : ChemicalState) (conditions : EquilibriumConditions)
    (restrictions : EquilibriumRestrictions) : Eff Impl unit :=
  (params <- lift (conditions_params conditions) ;;
   modify (fun self =>
     set_optdims {| dims_x := Nx (dims self);
                    dims_p := Np (dims self);
                    dims_be := Nc (dims self) |} self) ;;;
   modify (fun self => set_optproblem (OptimaProblem_new (optdims self)) self) ;;;
   modify (fun self =>
     set_optproblem
       {| pb_dims := pb_dims (optproblem self);
          pb_f := objective (setup self) params;
          pb_v := constraint (setup self) params;
          pb_Aex := assembleMatrixAex (setup self);
          pb_Aep := assembleMatrixAep (setup self);
          pb_be := assembleVectorBe (setup self) conditions state0;
          pb_xlower := assembleLowerBoundsVector (setup self) restrictions state0;
          pb_xupper := assembleUpperBoundsVector (setup self) restrictions state0 |}
       self))%eff.

(** The dimensions that [updateOptProblem] gives to the optimizer. *)
Definition solver_optdims (self : Impl) : OptimaDims :=
  {| dims_x := Nx (dims self); dims_p := Np (dims self); dims_be := Nc (dims self) |}.

(** Update the initial state variables before the new equilibrium calculation. *)
Definition updateOptState (state0 : ChemicalState) (self : Impl) : Impl :=
  let self := set_optstate (optimaState state0) self in
  let self :=
    if negb (dims_x (st_dims (optstate self)) =? Nx (dims self))%nat
    then set_optstate (OptimaState_new (optdims self)) self
    else self in
  set_optstate
    (set_st_x (assign_head (Nn (dims self)) (st_x (optstate self)) (speciesAmounts state0))
       (optstate self))
    self.

(** Write the iterate of the optimizer into the chemical state. *)
Definition updateChemicalState (self : Impl) (state : ChemicalState) : ChemicalState :=
  let state := set_speciesAmounts (head (Nn (dims self)) (st_x (optstate self))) state in
  setOptimaState (optstate self) state.

(** Solve an equilibrium problem with given chemical state in
    disequilibrium: the form with conditions and restrictions. *)
Definition solve3 (self : Impl) (state0 : ChemicalState)
    (conditions : EquilibriumConditions) (restrictions : EquilibriumRestrictions)
  : Outcome EquilibriumResult * Impl * ChemicalState :=
  match updateOptProblem state0 conditions restrictions self with
  | (Raised e, self1) => (Raised e, self1, state0)
  | (Ok _, self1) =>
      let self2 := updateOptState state0 self1 in
      match optsolver_solve (optproblem self2) (optstate self2) with
      | (Raised e, iterate) => (Raised e, set_optstate iterate self2, state0)
      | (Ok result, iterate) =>
          let self3 := set_optstate iterate self2 in
          let state1 := updateChemicalState self3 state0 in
          (Ok {| result_optima := result |}, self3, state1)
      end
  end.

(** The form with conditions only. *)
Definition solve2 (self : Impl) (state0 : ChemicalState)
    (conditions : EquilibriumConditions)
  : Outcome EquilibriumResult * Impl * ChemicalState :=
  let restrictions := EquilibriumRestrictions_new (system self) in
  solve3 self state0 conditions restrictions.

(** The form with the chemical state only. *)
Definition solve1 (self : Impl) (state0 : ChemicalState)
  : Outcome EquilibriumResult * Impl * ChemicalState :=
  let conditions := EquilibriumConditions_new (specs self) in
  match (conditions <- conditions_temperature (temperature state0) conditions ;;
         conditions_pressure (pressure state0) conditions)%outcome with
  | Raised e => (Raised e, self, state0)
  | Ok conditions => solve2 self state0 conditions
  end.

(** *** [EquilibriumSolver], the public class around [Impl] *)

Record EquilibriumSolver : Type := mkEquilibriumSolver {
  pimpl : Impl
}.

Definition EquilibriumSolver_fromSystem (sys : ChemicalSystem) : Outcome EquilibriumSolver :=
  (impl <- Impl_new (defaultEquilibriumSpecs sys) ;;
   Ok {| pimpl := impl |})%outcome.

Definition EquilibriumSolver_fromSpecs (specs0 : EquilibriumSpecs) : Outcome EquilibriumSolver :=
  (impl <- Impl_new specs0 ;;
   Ok {| pimpl := impl |})%outcome.

Definition EquilibriumSolver_setOptions (opts : EquilibriumOptions) : Eff EquilibriumSolver unit :=
  fun solver =>
    let '(out, impl) := setOptions opts (pimpl solver) in
    (out, {| pimpl := impl |}).

Definition wrap (r : Outcome EquilibriumResult * Impl * ChemicalState)
  : Outcome EquilibriumResult * EquilibriumSolver * ChemicalState :=
  let '(out, impl, state) := r in (out, {| pimpl := impl |}, state).

Definition EquilibriumSolver_solve1 (solver : EquilibriumSolver) (state : ChemicalState) :=
  wrap (solve1 (pimpl solver) state).

Definition EquilibriumSolver_solve2 (solver : EquilibriumSolver) (state : ChemicalState)
    (conditions : EquilibriumConditions) :=
  wrap (solve2 (pimpl solver) state conditions).

Definition EquilibriumSolver_solve3 (solver : EquilibriumSolver) (state : ChemicalState)
    (conditions : EquilibriumConditions) (restrictions : EquilibriumRestrictions) :=
  wrap (solve3 (pimpl solver) state conditions restrictions).

End Solver.

End Equilibrium.

(** ** Mineral reaction rates after Palandri and Kharaka *)

Module PalandriKharaka.

(** [indexfn(container, pred)] of [Algorithms.hpp]: the index of the first
    item that satisfies the predicate, the size of the container where no
    item does. *)
Fixpoint indexfn {A : Type} (items : list A) (pred : A -> bool) : nat :=
  match items with
  | [] => 0
  | item :: rest => if pred item then 0 else S (indexfn rest pred)
  end.

(** [contains(container, x)] of [Algorithms.hpp]. *)
Definition contains (items : list string) (x : string) : bool :=
  existsb (String.eqb x) items.

(** [errorif(condition, message...)] of [Exception.hpp]. *)
Definition errorif (condition : bool) (message : string) : Outcome unit :=
  error condition message.

(** Run a function that may throw over the items of a container, collecting
    the results in order: the loops that [push_back] what a call returns. *)
Fixpoint collect {A B : Type} (f : A -> Outcome B) (items : list A) : Outcome (list B) :=
  match items with
  | [] => Ok []
  | item :: rest =>
      (b <- f item ;;
       bs <- collect f rest ;;
       Ok (b :: bs))%outcome
  end.

(** The number type [real] with the operations the file uses on it; [lit]
    gives the value of a literal of type [double]. *)
Class Arithmetic : Type := {
  real : Type;
  lit : Q -> real;
  radd : real -> real -> real;
  rsub : real -> real -> real;
  rmul : real -> real -> real;
  rdiv : real -> real -> real;
  ropp : real -> real;
  rpow : real -> real -> real;
  rexp : real -> real;
  rneqb : real -> real -> bool;
  universalGasConstant : real
}.

(** The list of phases and the chemical properties as the file uses them:
    [phases.indexWithAggregateState(s)], which may find no such phase,
    [phases[i].species().indexWithFormula(f)], which may find no such
    species, [phases.numSpeciesUntilPhase(i)], and the accessors of
    [ChemicalProps]. *)
Class Chemistry {A : Arithmetic} : Type := {
  PhaseList : Type;
  ChemicalProps : Type;
  indexWithAggregateState : PhaseList -> Phases.AggregateState -> Outcome nat;
  indexWithFormula : PhaseList -> nat -> string -> Outcome nat;
  numSpeciesUntilPhase : PhaseList -> nat -> nat;
  props_temperature : ChemicalProps -> real;
  props_pressure : ChemicalProps -> real;
  speciesActivity : ChemicalProps -> nat -> real;
  speciesMoleFraction : ChemicalProps -> nat -> real
}.

Section Model.

Context {A : Arithmetic} {K : Chemistry}.

Record Catalyst : Type := mkCatalyst {
  formula : string;
  property : string;
  power : real
}.

Record Mechanism : Type := mkMechanism {
  lgk : real;
  E : real;
  p : real;
  q : real;
  catalysts : list Catalyst
}.

(** [ReactionRateModelParamsPalandriKharaka]. *)
Record Params : Type := mkParams {
  names : list string;
  mechanisms : list Mechanism
}.

Record MineralReactionRateArgs : Type := mkArgs {
  props : ChemicalProps;
  Omega : real;
  area : real
}.

Definition MineralReactionRateModel : Type := MineralReactionRateArgs -> real.

Definition MineralReactionRateModelGenerator : Type :=
  string -> PhaseList -> Outcome MineralReactionRateModel.

(** The index, among all species, of the species with the given formula in
    the phase with the given aggregate state: the three lines that both
    catalyst functions start with. *)
Definition speciesIndex (phases : PhaseList) (state : Phases.AggregateState)
    (formula0 : string) : Outcome nat :=
  (iphase <- indexWithAggregateState phases state ;;
   ispeciesInPhase <- indexWithFormula phases iphase formula0 ;;
   Ok (numSpeciesUntilPhase phases iphase + ispeciesInPhase)%nat)%outcome.

(** Construct a function that computes the activity-based contribution of a
    catalyst in the mineral reaction rate. *)
Definition mineralCatalystFnActivity (catalyst : Catalyst) (phases : PhaseList)
  : Outcome (ChemicalProps -> real) :=
  (ispecies <- speciesIndex phases Phases.AggregateState_Aqueous (formula catalyst) ;;
   Ok (fun props0 =>
         let ai := speciesActivity props0 ispecies in
         rpow ai (power catalyst)))%outcome.

(** Construct a function that computes the partial-pressure-based
    contribution of a catalyst in the mineral reaction rate. *)
Definition mineralCatalystFnPartialPressure (catalyst : Catalyst) (phases : PhaseList)
  : Outcome (ChemicalProps -> real) :=
  (ispecies <- speciesIndex phases Phases.AggregateState_Gas (formula catalyst) ;;
   Ok (fun props0 =>
         let P := props_pressure props0 in
         let xi := speciesMoleFraction props0 ispecies in
         let Pi := rmul (rmul xi P) (lit (1 # 100000)) in
         rpow Pi (power catalyst)))%outcome.

(** Construct a function that computes the contribution of a catalyst in
    the mineral reaction rate. *)
Definition mineralCatalystFn (catalyst : Catalyst) (phases : PhaseList)
  : Outcome (ChemicalProps -> real) :=
  if String.eqb (property catalyst) "a" then mineralCatalystFnActivity catalyst phases
  else if String.eqb (property catalyst) "P" then mineralCatalystFnPartialPressure catalyst phases
  else
    (errorif true
       ("Expecting mineral catalyst property symbol to be either `a` or `P`, but got `"
        ++ property catalyst ++ "` instead.") ;;;
     Raised (RuntimeError "no return value"))%outcome.

Definition mineralMechanismFn (mechanism : Mechanism) (phases : PhaseList)
  : Outcome MineralReactionRateModel :=
  let R := rmul universalGasConstant (lit (1 # 1000)) in
  (catalyst_fns <- collect (fun catalyst => mineralCatalystFn catalyst phases)
                     (catalysts mechanism) ;;
   Ok (fun args =>
         let T := props_temperature (props args) in
         let k0 := rpow (lgk mechanism) (lit 10) in
         let k :=
           rmul k0
             (rexp (rmul (rdiv (ropp (E mechanism)) R)
                      (rsub (rdiv (lit 1) T) (rdiv (lit 1) (lit (29815 # 100)))))) in
         let pOmega :=
           if rneqb (p mechanism) (lit 1) then rpow (Omega args) (p mechanism)
           else Omega args in
         let qOmega :=
           if rneqb (q mechanism) (lit 1) then rpow (rsub (lit 1) pOmega) (q mechanism)
           else rsub (lit 1) pOmega in
         let g :=
           fold_left (fun g catalystfn => rmul g (catalystfn (props args)))
             catalyst_fns (lit 1) in
         rmul (rmul k qOmega) g))%outcome.

(** [ReactionRateModelPalandriKharaka(params)]: the generator for one set of
    parameters. *)
Definition ReactionRateModelPalandriKharaka (params : Params)
  : MineralReactionRateModelGenerator :=
  fun mineral phases =>
    (mechanism_fns <- collect (fun mechanism => mineralMechanismFn mechanism phases)
                        (mechanisms params) ;;
     Ok (fun args =>
           let area0 := area args in
           let sum :=
             fold_left (fun sum mechanismfn => radd sum (mechanismfn args))
               mechanism_fns (lit 0) in
           rmul area0 sum))%outcome.

(** [ReactionRateModelPalandriKharaka(paramsvec)]: the generator for several
    sets of parameters.  The index was checked where [paramsvec[idx]] is
    read. *)
Definition ReactionRateModelPalandriKharaka_vec (paramsvec : list Params)
  : MineralReactionRateModelGenerator :=
  fun mineral phases =>
    let idx := indexfn paramsvec (fun x => contains (names x) mineral) in
    (errorif (List.length paramsvec <=? idx)%nat
       ("Could not find a mineral with name `" ++ mineral
        ++ "` in the provided set of Palandri-Kharaka parameters.") ;;;
     match nth_error paramsvec idx with
     | Some params => ReactionRateModelPalandriKharaka params mineral phases
     | None => Raised (RuntimeError "index out of range")
     end)%outcome.

(** Whether a catalyst has one of the two property symbols. *)
Definition knownProperty (catalyst : Catalyst) : bool :=
  String.eqb (property catalyst) "a" || String.eqb (property catalyst) "P".

(** The aggregate state of the phase in which the species of a catalyst with
    a known property is looked up. *)
Definition catalystPhase (catalyst : Catalyst) : Phases.AggregateState :=
  if String.eqb (property catalyst) "a"
  then Phases.AggregateState_Aqueous
  else Phases.AggregateState_Gas.

End Model.

End PalandriKharaka.

(** ** The layering of the [solve] overloads, as the specification words it *)

Module SolveSpec.

Import Equilibrium.

(** "default Conditions (current T, P held fixed)": conditions for the
    specification that fix temperature and pressure at the given values. *)
Definition conditionsFixing (specs0 : EquilibriumSpecs) (T P : Q) : Outcome EquilibriumConditions :=
  (c <- conditions_set Temperature T (EquilibriumConditions_new specs0) ;;
   conditions_set Pressure P c)%outcome.

(** "default Restrictions (no restriction)". *)
Definition noRestriction (sys : ChemicalSystem) : EquilibriumRestrictions :=
  {| restr_system := sys; restr_overrides := [] |}.

(** [solve(state)] as a call of the full form. *)
Definition solve_state {C : Collaborators} (self : Impl) (state : ChemicalState)
  : Outcome EquilibriumResult * Impl * ChemicalState :=
  match conditionsFixing (specs self) (temperature state) (pressure state) with
  | Raised e => (Raised e, self, state)
  | Ok conditions => solve3 self state conditions (noRestriction (system self))
  end.

(** [solve(state, conditions)] as a call of the full form. *)
Definition solve_state_conditions {C : Collaborators} (self : Impl) (state : ChemicalState)
    (conditions : EquilibriumConditions)
  : Outcome EquilibriumResult * Impl * ChemicalState :=
  solve3 self state conditions (noRestriction (system self)).

End SolveSpec.

(** ** Small instances on which the definitions can be run *)

Module Samples.

Import Equilibrium.

(** Embedded resources holding the three NASA databases (one line each). *)
Definition embedded (path : string) : option string :=
  if String.eqb path "databases/nasa/cea.dat" then Some "cea-species"
  else if String.eqb path "databases/nasa/cea-improved.dat" then Some "cea-improved-species"
  else if String.eqb path "databases/nasa/burcat.dat" then Some "burcat-species"
  else None.

(** A parser that keeps the lines of the stream. *)
Definition parseSpecies (stream : string) : Outcome (list string) := Ok [stream].

(** A database seen as the list of (species name, element symbols). *)
Definition Database : Type := list (string * list string).

Definition speciesElementSymbols (db : Database) (names : list string) : list (list string) :=
  map snd (filter (fun e => existsb (String.eqb (fst e)) names) db).

Definition merge (a b : list string) : list string :=
  a ++ filter (fun s => negb (existsb (String.eqb s) a)) b.

(** One pure phase per species, named after the species. *)
Definition GenericPhases_convert (db : Database) (els : list string) (phs : Phases.GenericPhases)
  : list Phases.GenericPhase :=
  map (fun s =>
         Phases.setName s
           (Phases.setIdealActivityModel (Phases.gs_ideal_activity_model phs)
              (Phases.setActivityModel (Phases.gs_activity_model phs)
                 (Phases.setAggregateState (Phases.gs_aggregatestate phs)
                    (Phases.setStateOfMatter (Phases.gs_stateofmatter phs)
                       (Phases.GenericPhase_species [s]))))))
      (Phases.gs_names phs).

(** A phase as its name with the names of its species. *)
Definition Phase : Type := (string * list string)%type.

Definition GenericPhase_convert (db : Database) (els : list string) (ph : Phases.GenericPhase)
  : Phase :=
  (Phases.name ph, Phases.names ph).

Definition water_db : Database :=
  [("H2O(aq)", ["H"; "O"]); ("CO2(g)", ["C"; "O"]); ("Calcite", ["Ca"; "C"; "O"])].

(** A system of two species and a thermodynamic model that cannot be
    evaluated where an amount is negative. *)
Definition sys2 : ChemicalSystem :=
  {| species := [ {| species_name := "H2O" |}; {| species_name := "CO2" |} ] |}.

Definition nonphysical (x : VectorXd) : bool :=
  existsb (fun a => negb (Qle_bool 0 a)) x.

Definition guarded {A : Type} (x : VectorXd) (value : A) : Outcome A :=
  if nonphysical x then Raised (RuntimeError "PropertyEvaluationFailed") else Ok value.

Definition quiet : OptimaOptions :=
  {| output := {| active := false; xprefix := "x"; xnames := [] |} |}.

Definition first_try : ObjectiveResult :=
  {| res_f := 0; res_fx := []; res_fxx := []; res_fxp := []; res_succeeded := false |}.

(** The result object as an earlier, successful evaluation left it. *)
Definition accepted : ObjectiveResult :=
  {| res_f := 56; res_fx := [1; 1; 1]; res_fxx := []; res_fxp := [];
     res_succeeded := true |}.

Definition first_try_v : ConstraintResult :=
  {| res_val := []; res_ddx := []; res_ddp := []; cres_succeeded := false |}.

(** An optimizer that evaluates the objective once at the starting point and
    stops without converging, leaving the iterate as it is. *)
Definition idle_solver (problem : OptimaProblem) (iterate : OptimaState)
  : Outcome OptimaResult * OptimaState :=
  match pb_f problem (st_x iterate) (st_p iterate)
          {| eval_fxx := false; eval_fxp := false |} first_try with
  | (Raised e, _) => (Raised e, iterate)
  | (Ok _, _) => (Ok {| result_succeeded := false; result_iterations := 1 |}, iterate)
  end.

#[export] Instance model : Collaborators := {|
  default_options := {| epsilon := 1 # 1000000; optima := quiet |};
  EquilibriumDims_new := fun specs0 =>
    let n := List.length (species (specs_system specs0)) in
    {| Nn := n; Nx := n + 1; Np := 2; Nc := 1 |};
  conditions_params := fun c => Ok (map snd (cond_values c));
  evalObjectiveValue := fun _ x _ _ => guarded x (fold_right Qplus 0 x);
  evalObjectiveGradX := fun _ x _ _ => guarded x (map (fun _ => 1) x);
  evalObjectiveHessianX := fun _ x _ _ => guarded x [];
  evalObjectiveHessianP := fun _ x _ _ => guarded x [];
  evalEquationConstraints := fun _ x _ _ => guarded x [];
  evalEquationConstraintsGradX := fun _ x _ _ => guarded x [];
  evalEquationConstraintsGradP := fun _ x _ _ => guarded x [];
  assembleMatrixAex := fun _ => [[1; 1; 0]];
  assembleMatrixAep := fun _ => [[0; 0]];
  assembleVectorBe := fun _ _ state => [fold_right Qplus 0 (speciesAmounts state)];
  assembleLowerBoundsVector := fun s _ _ => zeros 3;
  assembleUpperBoundsVector := fun s _ _ => [1000; 1000; 1000];
  optsolver_solve := idle_solver
|}.

Definition specs2 : EquilibriumSpecs := defaultEquilibriumSpecs sys2.

Definition setup2 : EquilibriumSetup :=
  {| setup_specs := specs2; setup_options := default_options |}.

(** The solver for [sys2] in the state its constructor leaves it in. *)
Definition impl2 : Impl :=
  {| system := sys2;
     specs := specs2;
     dims := EquilibriumDims_new specs2;
     setup := setup2;
     options := default_options;
     n0 := [];
     optdims := OptimaDims_default;
     optproblem := OptimaProblem_new OptimaDims_default;
     optstate := OptimaState_default |}.

(** A state that was never solved, and one that keeps the iterate of an
    earlier calculation although its amounts were changed since. *)
Definition fresh_state : ChemicalState :=
  {| state_system := sys2; temperature := 29815 # 100; pressure := 100000;
     speciesAmounts := [55; 1]; optimaState := OptimaState_default |}.

Definition earlier_iterate : OptimaState :=
  {| st_dims := {| dims_x := 3; dims_p := 2; dims_be := 1 |};
     st_x := [54; 2; 7]; st_p := [29815 # 100; 100000]; st_y := [3]; st_z := [0; 0; 0] |}.

Definition touched_state : ChemicalState :=
  {| state_system := sys2; temperature := 29815 # 100; pressure := 100000;
     speciesAmounts := [55; 1]; optimaState := earlier_iterate |}.

Definition conditions2 : EquilibriumConditions :=
  {| cond_specs := specs2;
     cond_values := [(Pressure, 100000); (Temperature, 29815 # 100)] |}.

Definition bad_options : EquilibriumOptions :=
  {| epsilon := 0; optima := quiet |}.

(** Options that ask for diagnostic output, with names already present. *)
Definition verbose_options : EquilibriumOptions :=
  {| epsilon := 1 # 1000;
     optima := {| output := {| active := true; xprefix := "x"; xnames := ["old"] |} |} |}.

(** The same collaborators, but for a gradient that cannot be evaluated. *)
Definition model_without_gradient : Collaborators := {|
  default_options := {| epsilon := 1 # 1000000; optima := quiet |};
  EquilibriumDims_new := EquilibriumDims_new (Collaborators := model);
  conditions_params := conditions_params (Collaborators := model);
  evalObjectiveValue := evalObjectiveValue (Collaborators := model);
  evalObjectiveGradX := fun _ _ _ _ => Raised (RuntimeError "GradientUnavailable");
  evalObjectiveHessianX := evalObjectiveHessianX (Collaborators := model);
  evalObjectiveHessianP := evalObjectiveHessianP (Collaborators := model);
  evalEquationConstraints := evalEquationConstraints (Collaborators := model);
  evalEquationConstraintsGradX := evalEquationConstraintsGradX (Collaborators := model);
  evalEquationConstraintsGradP := evalEquationConstraintsGradP (Collaborators := model);
  assembleMatrixAex := assembleMatrixAex (Collaborators := model);
  assembleMatrixAep := assembleMatrixAep (Collaborators := model);
  assembleVectorBe := assembleVectorBe (Collaborators := model);
  assembleLowerBoundsVector := assembleLowerBoundsVector (Collaborators := model);
  assembleUpperBoundsVector := assembleUpperBoundsVector (Collaborators := model);
  optsolver_solve := optsolver_solve (Collaborators := model)
|}.

(** The solver for [sys2] after a calculation: it holds an iterate of its
    own dimension. *)
Definition impl2_solved : Impl :=
  set_optstate earlier_iterate impl2.

(** Rational numbers standing in for [real], with powers to the integer
    part of the exponent and the exponential cut after its second-order
    term; enough to run the rate model. *)
Definition rationals : PalandriKharaka.Arithmetic := {|
  PalandriKharaka.real := Q;
  PalandriKharaka.lit := fun v => v;
  PalandriKharaka.radd := Qplus;
  PalandriKharaka.rsub := Qminus;
  PalandriKharaka.rmul := Qmult;
  PalandriKharaka.rdiv := Qdiv;
  PalandriKharaka.ropp := Qopp;
  PalandriKharaka.rpow := fun a b => Qpower a (Z.div (Qnum b) (Zpos (Qden b)));
  PalandriKharaka.rexp := fun v => 1 + v + v * v / 2;
  PalandriKharaka.rneqb := fun a b => negb (Qeq_bool a b);
  PalandriKharaka.universalGasConstant := 8314 # 1000
|}.

Definition AggregateState_eqb (a b : Phases.AggregateState) : bool :=
  match a, b with
  | Phases.AggregateState_Undefined, Phases.AggregateState_Undefined => true
  | Phases.AggregateState_Aqueous, Phases.AggregateState_Aqueous => true
  | Phases.AggregateState_Gas, Phases.AggregateState_Gas => true
  | Phases.AggregateState_Liquid, Phases.AggregateState_Liquid => true
  | Phases.AggregateState_Solid, Phases.AggregateState_Solid => true
  | _, _ => false
  end.

Definition lookup {T : Type} (pred : T -> bool) (items : list T) (what : string)
  : Outcome nat :=
  let i := PalandriKharaka.indexfn items pred in
  if (List.length items <=? i)%nat then Raised (RuntimeError what) else Ok i.

(** Phases as their aggregate state with the formulas of their species;
    chemical properties as temperature, pressure, and the activities and
    mole fractions of the species. *)
Definition chemistry : PalandriKharaka.Chemistry (A := rationals) :=
  @PalandriKharaka.Build_Chemistry rationals
    (list (Phases.AggregateState * list string))
    (Q * Q * list Q * list Q)%type
    (fun phases state =>
       lookup (fun ph => AggregateState_eqb (fst ph) state) phases "no such phase")
    (fun phases i formula =>
       lookup (String.eqb formula)
         (snd (nth i phases (Phases.AggregateState_Undefined, []))) "no such species")
    (fun phases i => List.length (flat_map snd (firstn i phases)))
    (fun props => fst (fst (fst props)))
    (fun props => snd (fst (fst props)))
    (fun props i => nth i (snd (fst props)) 0)
    (fun props i => nth i (snd props) 0).

Definition brine_and_gas : list (Phases.AggregateState * list string) :=
  [(Phases.AggregateState_Aqueous, ["H2O"; "H+"; "Ca+2"]);
   (Phases.AggregateState_Gas, ["CO2"]);
   (Phases.AggregateState_Solid, ["CaCO3"])].

(** Parameters for calcite with an acid mechanism catalysed by H+ and a
    carbonate mechanism catalysed by the partial pressure of CO2, and
    parameters for halite whose catalyst has an unknown property symbol. *)
Definition calcite_params : PalandriKharaka.Params (A := rationals) :=
  @PalandriKharaka.mkParams rationals ["Calcite"; "CaCO3"]
    [ @PalandriKharaka.mkMechanism rationals 1 (144 # 10) 1 1
        [ @PalandriKharaka.mkCatalyst rationals "H+" "a" 1 ];
      @PalandriKharaka.mkMechanism rationals 1 (354 # 10) 1 1
        [ @PalandriKharaka.mkCatalyst rationals "CO2" "P" 1 ] ].

Definition halite_params : PalandriKharaka.Params (A := rationals) :=
  @PalandriKharaka.mkParams rationals ["Halite"]
    [ @PalandriKharaka.mkMechanism rationals 1 (74 # 10) 1 1
        [ @PalandriKharaka.mkCatalyst rationals "H+" "m" 1 ] ].

End Samples.

(** * Properties *)

Local Open Scope nat_scope.

Lemma oneof_In (x : string) (candidates : list string) :
  oneof x candidates = true <-> In x candidates.
Proof.
  unfold oneof. rewrite existsb_exists. split.
  - intros [y [Hin Heq]]. apply String.eqb_eq in Heq. now subst.
  - intros Hin. exists x. split; [assumption | apply String.eqb_refl].
Qed.

Lemma getNasaDatabaseContent_unsupported {embedded} (name : string) :
  ~ In name Nasa.supportedNames ->
  exists what, Nasa.getNasaDatabaseContent embedded name = Raised (RuntimeError what).
Proof.
  intros Hnot. unfold Nasa.getNasaDatabaseContent.
  destruct (oneof name Nasa.supportedNames) eqn:E.
  - apply oneof_In in E. contradiction.
  - cbn. eauto.
Qed.

Lemma getNasaDatabaseContent_supported {embedded} (name : string) :
  In name Nasa.supportedNames ->
  Nasa.getNasaDatabaseContent embedded name
  = Nasa.fs_open embedded (Nasa.embeddedPath name).
Proof.
  intros Hin. unfold Nasa.getNasaDatabaseContent.
  apply oneof_In in Hin. rewrite Hin. reflexivity.
Qed.

(** C9.  Provided the three databases are embedded and parse, loading a NASA
    database by name raises an error exactly when the name is none of "cea",
    "cea-improved", "burcat"; an unsupported name is rejected by the runtime
    error of the name check, and a supported one goes on to open the embedded
    file [databases/nasa/<name>.dat] and to parse its contents. *)
Theorem withName_fails_iff_unsupported
    (NasaDatabase : Type) (parseSpecies : string -> Outcome NasaDatabase)
    (embedded : string -> option string)
    (Hfiles : forall name, In name Nasa.supportedNames ->
                exists contents db,
                  embedded (Nasa.embeddedPath name) = Some contents /\
                  parseSpecies contents = Ok db)
    (name : string) :
  (raises (Nasa.getNasaDatabaseContent embedded name) <-> ~ In name Nasa.supportedNames) /\
  (raises (Nasa.withName parseSpecies embedded name) <-> ~ In name Nasa.supportedNames) /\
  (~ In name Nasa.supportedNames ->
     exists what,
       Nasa.getNasaDatabaseContent embedded name = Raised (RuntimeError what) /\
       Nasa.withName parseSpecies embedded name = Raised (RuntimeError what)) /\
  (In name Nasa.supportedNames ->
     exists contents,
       embedded (Nasa.embeddedPath name) = Some contents /\
       Nasa.getNasaDatabaseContent embedded name = Ok contents /\
       Nasa.withName parseSpecies embedded name = parseSpecies contents).
Proof.
  assert (Hsup : In name Nasa.supportedNames ->
     exists contents,
       embedded (Nasa.embeddedPath name) = Some contents /\
       Nasa.getNasaDatabaseContent embedded name = Ok contents /\
       Nasa.withName parseSpecies embedded name = parseSpecies contents).
  { intros Hin. destruct (Hfiles name Hin) as [contents [db [Hopen Hparse]]].
    exists contents. split; [assumption |].
    assert (Hget : Nasa.getNasaDatabaseContent embedded name = Ok contents).
    { rewrite (getNasaDatabaseContent_supported name Hin).
      unfold Nasa.fs_open. now rewrite Hopen. }
    split; [assumption |].
    unfold Nasa.withName. rewrite Hget. reflexivity. }
  assert (Hunsup : ~ In name Nasa.supportedNames ->
     exists what,
       Nasa.getNasaDatabaseContent embedded name = Raised (RuntimeError what) /\
       Nasa.withName parseSpecies embedded name = Raised (RuntimeError what)).
  { intros Hnot.
    destruct (getNasaDatabaseContent_unsupported (embedded := embedded) name Hnot)
      as [what Hget].
    exists what. split; [assumption |].
    unfold Nasa.withName. rewrite Hget. reflexivity. }
  split; [| split; [| split]]; try assumption.
  - split.
    + intros [e He] Hin. destruct (Hsup Hin) as [c [_ [Hget _]]]. congruence.
    + intros Hnot. destruct (Hunsup Hnot) as [what [Hget _]]. now exists (RuntimeError what).
  - split.
    + intros [e He] Hin. destruct (Hsup Hin) as [c [Hopen [_ Hwith]]].
      destruct (Hfiles name Hin) as [c' [db [Hopen' Hparse]]].
      assert (c' = c) by congruence. subst c'. congruence.
    + intros Hnot. destruct (Hunsup Hnot) as [what [_ Hwith]]. now exists (RuntimeError what).
Qed.

(** ** Phases: names after construction *)

Section FreshNames.

Import Phases.

Lemma string_length_append (a b : string) :
  String.length (a ++ b) = String.length a + String.length b.
Proof.
  induction a as [| c a IH]; simpl; [reflexivity | now rewrite IH].
Qed.

Lemma longer_antitone (n m : nat) (seen : Strings) :
  n <= m -> longer m seen <= longer n seen.
Proof.
  intros Hnm. unfold longer. induction seen as [| w seen IH]; simpl; [lia |].
  destruct (m <=? String.length w) eqn:Em; destruct (n <=? String.length w) eqn:En;
    simpl; try lia.
  apply Nat.leb_le in Em. apply Nat.leb_gt in En. lia.
Qed.

Lemma longer_drops (n m : nat) (seen : Strings) (w : string) :
  In w seen -> n <= String.length w -> String.length w < m ->
  longer m seen < longer n seen.
Proof.
  intros Hin Hn Hm. induction seen as [| v seen IH]; [contradiction |].
  pose proof (longer_antitone n m seen ltac:(lia)) as Hanti.
  unfold longer in *. simpl.
  destruct Hin as [-> | Hin].
  - replace (m <=? String.length w) with false by (symmetry; apply Nat.leb_gt; lia).
    replace (n <=? String.length w) with true by (symmetry; apply Nat.leb_le; lia).
    simpl. lia.
  - specialize (IH Hin).
    destruct (m <=? String.length v) eqn:Em; destruct (n <=? String.length v) eqn:En;
      simpl; try lia.
    apply Nat.leb_le in Em. apply Nat.leb_gt in En. lia.
Qed.

Lemma existsb_eqb_In (w : string) (seen : Strings) :
  existsb (String.eqb w) seen = true <-> In w seen.
Proof. exact (oneof_In w seen). Qed.

(** With enough fuel for the words that are long enough to clash, the word
    that comes out is none of the words seen. *)
Lemma freshen_fresh (suffix : string) (seen : Strings) :
  suffix <> "" ->
  forall fuel word,
    longer (String.length word) seen <= fuel ->
    ~ In (freshen fuel suffix seen word) seen.
Proof.
  intros Hsuffix. induction fuel as [| fuel IH]; intros word Hfuel; simpl.
  - intros Hin.
    pose proof (longer_drops (String.length word) (S (String.length word)) seen word
                  Hin (le_n _) (Nat.lt_succ_diag_r _)).
    lia.
  - destruct (existsb (String.eqb word) seen) eqn:E.
    + apply existsb_eqb_In in E. apply IH.
      assert (Hlen : String.length word < String.length (word ++ suffix)).
      { rewrite string_length_append. destruct suffix; [congruence | simpl; lia]. }
      pose proof (longer_drops (String.length word) (String.length (word ++ suffix))
                    seen word E (le_n _) Hlen).
      lia.
    + intros Hin. apply existsb_eqb_In in Hin. congruence.
Qed.

Lemma longer_le_length (n : nat) (seen : Strings) : longer n seen <= List.length seen.
Proof. unfold longer. apply filter_length_le. Qed.

Lemma makeunique_from_length (suffix : string) (words seen : Strings) :
  List.length (makeunique_from seen words suffix) = List.length words.
Proof.
  revert seen. induction words as [| w words IH]; intros seen; simpl;
    [reflexivity | now rewrite IH].
Qed.

Lemma makeunique_from_NoDup (suffix : string) :
  suffix <> "" ->
  forall words seen,
    NoDup seen -> NoDup (seen ++ makeunique_from seen words suffix).
Proof.
  intros Hsuffix. induction words as [| w words IH]; intros seen Hseen; simpl.
  - now rewrite app_nil_r.
  - set (u := freshen (List.length seen) suffix seen w).
    assert (Hfresh : ~ In u seen).
    { apply freshen_fresh; [assumption | apply longer_le_length]. }
    replace (seen ++ u :: makeunique_from (seen ++ [u]) words suffix)
      with ((seen ++ [u]) ++ makeunique_from (seen ++ [u]) words suffix)
      by (now rewrite <- app_assoc).
    apply IH. apply NoDup_app; [assumption | repeat constructor; intros [] |].
    intros a Ha [<- | []]. contradiction.
Qed.

(** The model of [makeunique] keeps the number of words and returns
    pairwise different ones, whatever the non-empty suffix. *)
Lemma makeunique_model_unique (suffix : string) (words : Strings) :
  suffix <> "" ->
  List.length (makeunique_model words suffix) = List.length words /\
  NoDup (makeunique_model words suffix).
Proof.
  intros Hsuffix. unfold makeunique_model. split.
  - apply makeunique_from_length.
  - apply (makeunique_from_NoDup suffix Hsuffix words [] (NoDup_nil _)).
Qed.

End FreshNames.

Section PhaseNames.

Import Phases.

Lemma skipn_nth_cons (i : nat) (words : Strings) :
  i < List.length words ->
  skipn i words = nth i words "" :: skipn (S i) words.
Proof.
  revert words. induction i as [| i IH]; intros [| w words] Hi; simpl in *; try lia.
  - reflexivity.
  - apply IH. lia.
Qed.

(** The loop gives the phases the names found from position [i] on. *)
Lemma renamePhases_names (phases : list GenericPhase) :
  forall i phasenames,
    i + List.length phases <= List.length phasenames ->
    map name (renamePhases i phasenames phases)
    = firstn (List.length phases) (skipn i phasenames).
Proof.
  induction phases as [| ph phases IH]; intros i phasenames Hlen; simpl in *.
  - reflexivity.
  - rewrite (skipn_nth_cons i phasenames) by lia. simpl.
    f_equal. apply IH. lia.
Qed.

Lemma fixDuplicatePhaseNames_names {Database : Type}
    (makeunique : Strings -> string -> Strings) (self : Phases Database) :
  List.length (makeunique (map name (genericphases self)) "!")
  = List.length (map name (genericphases self)) ->
  map name (genericphases (fixDuplicatePhaseNames makeunique self))
  = makeunique (map name (genericphases self)) "!".
Proof.
  intros Hlen. unfold fixDuplicatePhaseNames. simpl.
  rewrite length_map in Hlen.
  rewrite renamePhases_names by (simpl; lia).
  simpl. rewrite <- Hlen. apply firstn_all.
Qed.

End PhaseNames.

(** C8.  Whenever [makeunique] returns as many words as it is given and
    returns them pairwise different, the phases held by a [Phases] object
    after construction carry pairwise different names: they are the words
    that [makeunique] returns for the names collected from the arguments.
    The [Phase] objects the container converts to have pairwise different
    names too, [GenericPhase::convert] keeping the name. *)
Theorem Phases_new_names_distinct
    (Database Phase : Type)
    (speciesElementSymbols : Database -> Phases.Strings -> list Phases.Strings)
    (merge : Phases.Strings -> Phases.Strings -> Phases.Strings)
    (makeunique : Phases.Strings -> string -> Phases.Strings)
    (GenericPhases_convert :
       Database -> Phases.Strings -> Phases.GenericPhases -> list Phases.GenericPhase)
    (GenericPhase_convert : Database -> Phases.Strings -> Phases.GenericPhase -> Phase)
    (Phase_name : Phase -> string)
    (Hunique : forall words,
        List.length (makeunique words "!") = List.length words /\
        NoDup (makeunique words "!"))
    (Hconvert : forall db els ph,
        Phase_name (GenericPhase_convert db els ph) = Phases.name ph)
    (db : Database) (arg : Phases.PhaseArg) (args : list Phases.PhaseArg) :
  let collected :=
    Phases.appendPhases Database GenericPhases_convert arg args
      (Phases.collectElements Database speciesElementSymbols merge arg args
         (Phases.mkPhases Database db [] [])) in
  let self :=
    Phases.Phases_new Database speciesElementSymbols merge makeunique
      GenericPhases_convert db arg args in
  map Phases.name (Phases.genericphases self)
  = makeunique (map Phases.name (Phases.genericphases collected)) "!" /\
  NoDup (map Phases.name (Phases.genericphases self)) /\
  NoDup (map Phase_name (Phases.to_VecPhase GenericPhase_convert self)).
Proof.
  intros collected self.
  assert (Hnames : map Phases.name (Phases.genericphases self)
                   = makeunique (map Phases.name (Phases.genericphases collected)) "!").
  { unfold self, Phases.Phases_new. apply fixDuplicatePhaseNames_names.
    apply (Hunique _). }
  split; [exact Hnames |].
  assert (Hdistinct : NoDup (map Phases.name (Phases.genericphases self))).
  { rewrite Hnames. apply (Hunique _). }
  split; [exact Hdistinct |].
  unfold Phases.to_VecPhase. rewrite map_map.
  rewrite (map_ext _ Phases.name); [exact Hdistinct |].
  intros ph. apply Hconvert.
Qed.

(** Two aqueous solutions and a mineral listed twice. *)
Example Phases_new_sample_names :
  map Phases.name
    (Phases.genericphases
       (Phases.Phases_new Samples.Database Samples.speciesElementSymbols Samples.merge
          Phases.makeunique_model Samples.GenericPhases_convert Samples.water_db
          (Phases.OnePhase Phases.AqueousSolution)
          [Phases.OnePhase (Phases.AqueousSolution_species ["H2O(aq)"]);
           Phases.ManyPhases (Phases.Minerals_species ["Calcite"; "Calcite"])]))
  = ["AqueousSolution"; "AqueousSolution!"; "Calcite"; "Calcite!"].
Proof. reflexivity. Qed.

Lemma Phases_new_names_distinct_witness :
  NoDup
    (map Phases.name
       (Phases.genericphases
          (Phases.Phases_new Samples.Database Samples.speciesElementSymbols Samples.merge
             Phases.makeunique_model Samples.GenericPhases_convert Samples.water_db
             (Phases.OnePhase Phases.AqueousSolution)
             [Phases.OnePhase (Phases.AqueousSolution_species ["H2O(aq)"]);
              Phases.ManyPhases (Phases.Minerals_species ["Calcite"; "Calcite"])]))).
Proof.
  refine (proj1 (proj2
    (Phases_new_names_distinct Samples.Database Samples.Phase
       Samples.speciesElementSymbols Samples.merge Phases.makeunique_model
       Samples.GenericPhases_convert Samples.GenericPhase_convert fst _ _
       Samples.water_db (Phases.OnePhase Phases.AqueousSolution)
       [Phases.OnePhase (Phases.AqueousSolution_species ["H2O(aq)"]);
        Phases.ManyPhases (Phases.Minerals_species ["Calcite"; "Calcite"])]))).
  - intros words. apply makeunique_model_unique. discriminate.
  - intros db els ph. reflexivity.
Defined.

Example withName_cea :
  Nasa.withName Samples.parseSpecies Samples.embedded "cea" = Ok ["cea-species"].
Proof. reflexivity. Qed.

Lemma withName_fails_iff_unsupported_witness :
  raises (Nasa.withName Samples.parseSpecies Samples.embedded "nist").
Proof.
  refine (proj2 (proj1 (proj2
    (withName_fails_iff_unsupported (list string) Samples.parseSpecies Samples.embedded
       _ "nist"))) _).
  - intros name [<- | [<- | [<- | []]]];
      eexists; eexists; split; reflexivity.
  - intros [H | [H | [H | []]]]; discriminate.
Defined.

(** ** The equilibrium solver: options *)

Section SolverOptions.

Import Equilibrium.
Context {C : Collaborators}.

(** The steps of [setOptions] one after the other. *)
Lemma setOptions_unfold (opts : EquilibriumOptions) (self : Impl) :
  setOptions opts self =
  let stored := set_setup (setup_setOptions opts (setup self)) (set_options opts self) in
  if Qle_bool (epsilon opts) 0
  then (Raised (RuntimeError "EquilibriumOptions::epsilon cannot be zero or negative."),
        stored)
  else (Ok tt,
        if active (output (optima opts))
        then set_options
               (fold_left (fun o sp => push_back_xname (species_name sp) o)
                  (species (system self)) (set_xprefix "n" opts))
               stored
        else stored).
Proof.
  unfold setOptions, ebind, modify, lift, error, when, eret. simpl.
  destruct (Qle_bool (epsilon opts) 0); [reflexivity |].
  destruct (active (output (optima opts))); reflexivity.
Qed.

Lemma setOptions_keeps_specs (opts : EquilibriumOptions) (self : Impl) :
  specs (snd (setOptions opts self)) = specs self /\
  system (snd (setOptions opts self)) = system self /\
  dims (snd (setOptions opts self)) = dims self.
Proof.
  rewrite setOptions_unfold. cbv zeta.
  destruct (Qle_bool (epsilon opts) 0); [repeat split |].
  destruct (active (output (optima opts))); repeat split.
Qed.

End SolverOptions.

(** C5.  [setOptions] throws if and only if the tolerance [epsilon] of the
    options it is given is zero or negative. *)
Theorem setOptions_fails_iff_epsilon_nonpositive
    (C : Equilibrium.Collaborators) (opts : Equilibrium.EquilibriumOptions)
    (self : Equilibrium.Impl) :
  raises (fst (Equilibrium.setOptions opts self)) <-> (Equilibrium.epsilon opts <= 0)%Q.
Proof.
  rewrite setOptions_unfold. cbv zeta. rewrite <- Qle_bool_iff.
  destruct (Qle_bool (Equilibrium.epsilon opts) 0); simpl; split.
  - reflexivity.
  - intros _. eexists. reflexivity.
  - intros [e He]. discriminate.
  - discriminate.
Qed.

(** C10.  A call of [setOptions] with a zero or negative [epsilon] throws
    after the options were stored: the solver then holds the rejected options,
    and so does its problem setup. *)
Theorem setOptions_stores_before_validating
    (C : Equilibrium.Collaborators) (opts : Equilibrium.EquilibriumOptions)
    (self : Equilibrium.Impl)
    (Hbad : (Equilibrium.epsilon opts <= 0)%Q) :
  raises (fst (Equilibrium.setOptions opts self)) /\
  Equilibrium.options (snd (Equilibrium.setOptions opts self)) = opts /\
  Equilibrium.setup_options (Equilibrium.setup (snd (Equilibrium.setOptions opts self))) = opts /\
  Equilibrium.options
    (Equilibrium.pimpl
       (snd (Equilibrium.EquilibriumSolver_setOptions opts
               (Equilibrium.mkEquilibriumSolver self)))) = opts.
Proof.
  unfold Equilibrium.EquilibriumSolver_setOptions. simpl.
  rewrite setOptions_unfold. cbv zeta.
  apply Qle_bool_iff in Hbad. rewrite Hbad. simpl.
  repeat split. eexists. reflexivity.
Qed.

Lemma setOptions_stores_before_validating_witness :
  Equilibrium.options (snd (Equilibrium.setOptions Samples.bad_options Samples.impl2))
  = Samples.bad_options.
Proof.
  refine (proj1 (proj2
    (setOptions_stores_before_validating Samples.model Samples.bad_options Samples.impl2 _))).
  vm_compute. discriminate.
Defined.

(** The solver held a valid tolerance before the rejected call. *)
Example setOptions_previous_options_lost :
  Equilibrium.epsilon (Equilibrium.options Samples.impl2) = (1 # 1000000)%Q /\
  Equilibrium.epsilon
    (Equilibrium.options (snd (Equilibrium.setOptions Samples.bad_options Samples.impl2)))
  = 0%Q.
Proof. split; reflexivity. Qed.

(** ** The equilibrium solver: the callbacks handed to the optimizer *)

Section Callbacks.

Import Equilibrium.
Context {C : Collaborators}.

Ltac run_callback :=
  unfold objective, constraint, ebind, lift, modify, when, eret; simpl.

(** A callback that returns has set the flag; one that throws has not
    touched it. *)
Lemma objective_flag (setup0 : EquilibriumSetup) (params x p : VectorXd)
    (opts : ObjectiveOptions) (res : ObjectiveResult) :
  match objective setup0 params x p opts res with
  | (Ok _, res') => res_succeeded res' = true
  | (Raised _, res') => res_succeeded res' = res_succeeded res
  end.
Proof.
  run_callback.
  destruct (evalObjectiveValue setup0 x p params); [| reflexivity].
  destruct (evalObjectiveGradX setup0 x p params); [| reflexivity].
  destruct (eval_fxx opts); simpl;
    [destruct (evalObjectiveHessianX setup0 x p params); [| reflexivity] |];
    (destruct (eval_fxp opts); simpl;
     [destruct (evalObjectiveHessianP setup0 x p params) |]; reflexivity).
Qed.

Lemma constraint_flag (setup0 : EquilibriumSetup) (params x p : VectorXd)
    (opts : ConstraintOptions) (res : ConstraintResult) :
  match constraint setup0 params x p opts res with
  | (Ok _, res') => cres_succeeded res' = true
  | (Raised _, res') => cres_succeeded res' = cres_succeeded res
  end.
Proof.
  run_callback.
  destruct (evalEquationConstraints setup0 x p params); [| reflexivity].
  destruct (eval_ddx opts); simpl;
    [destruct (evalEquationConstraintsGradX setup0 x p params); [| reflexivity] |];
    (destruct (eval_ddp opts); simpl;
     [destruct (evalEquationConstraintsGradP setup0 x p params) |]; reflexivity).
Qed.

(** A callback throws exactly when one of the evaluations it is asked for
    throws. *)
Lemma objective_throws (setup0 : EquilibriumSetup) (params x p : VectorXd)
    (opts : ObjectiveOptions) (res : ObjectiveResult) :
  raisesb (fst (objective setup0 params x p opts res))
  = raisesb (evalObjectiveValue setup0 x p params)
    || raisesb (evalObjectiveGradX setup0 x p params)
    || (eval_fxx opts && raisesb (evalObjectiveHessianX setup0 x p params))
    || (eval_fxp opts && raisesb (evalObjectiveHessianP setup0 x p params)).
Proof.
  run_callback.
  destruct (evalObjectiveValue setup0 x p params); [| reflexivity].
  destruct (evalObjectiveGradX setup0 x p params); [| reflexivity].
  destruct (eval_fxx opts); simpl;
    [destruct (evalObjectiveHessianX setup0 x p params); [| reflexivity] |];
    (destruct (eval_fxp opts); simpl;
     [destruct (evalObjectiveHessianP setup0 x p params) |]; reflexivity).
Qed.

Lemma constraint_throws (setup0 : EquilibriumSetup) (params x p : VectorXd)
    (opts : ConstraintOptions) (res : ConstraintResult) :
  raisesb (fst (constraint setup0 params x p opts res))
  = raisesb (evalEquationConstraints setup0 x p params)
    || (eval_ddx opts && raisesb (evalEquationConstraintsGradX setup0 x p params))
    || (eval_ddp opts && raisesb (evalEquationConstraintsGradP setup0 x p params)).
Proof.
  run_callback.
  destruct (evalEquationConstraints setup0 x p params); [| reflexivity].
  destruct (eval_ddx opts); simpl;
    [destruct (evalEquationConstraintsGradX setup0 x p params); [| reflexivity] |];
    (destruct (eval_ddp opts); simpl;
     [destruct (evalEquationConstraintsGradP setup0 x p params) |]; reflexivity).
Qed.

(** The exception of the first evaluation leaves the callback as it is,
    with the result object as the optimizer passed it. *)
Lemma objective_rethrows (setup0 : EquilibriumSetup) (params x p : VectorXd)
    (opts : ObjectiveOptions) (res : ObjectiveResult) :
  match evalObjectiveValue setup0 x p params with
  | Raised e => objective setup0 params x p opts res = (Raised e, res)
  | Ok _ => True
  end.
Proof.
  run_callback. destruct (evalObjectiveValue setup0 x p params); [exact I | reflexivity].
Qed.

Lemma constraint_rethrows (setup0 : EquilibriumSetup) (params x p : VectorXd)
    (opts : ConstraintOptions) (res : ConstraintResult) :
  match evalEquationConstraints setup0 x p params with
  | Raised e => constraint setup0 params x p opts res = (Raised e, res)
  | Ok _ => True
  end.
Proof.
  run_callback. destruct (evalEquationConstraints setup0 x p params); [exact I | reflexivity].
Qed.

End Callbacks.

(** C1, as the code has it.  The callbacks handed to the optimizer never
    report a failed evaluation.  A callback that returns has set [succeeded]
    to true; when an evaluation of the property model that the callback asks
    for throws, the callback throws too (and in no other case), the exception
    of the first evaluation leaves it unchanged, and the [succeeded] flag of
    the result object stays as the optimizer passed it. *)
Theorem callbacks_succeed_or_throw
    (C : Equilibrium.Collaborators) (setup0 : Equilibrium.EquilibriumSetup)
    (params x p : Equilibrium.VectorXd) :
  (forall opts res,
      match Equilibrium.objective setup0 params x p opts res with
      | (Ok _, res') => Equilibrium.res_succeeded res' = true
      | (Raised _, res') => Equilibrium.res_succeeded res' = Equilibrium.res_succeeded res
      end) /\
  (forall opts res,
      match Equilibrium.constraint setup0 params x p opts res with
      | (Ok _, res') => Equilibrium.cres_succeeded res' = true
      | (Raised _, res') => Equilibrium.cres_succeeded res' = Equilibrium.cres_succeeded res
      end) /\
  (forall opts res,
      raisesb (fst (Equilibrium.objective setup0 params x p opts res))
      = raisesb (Equilibrium.evalObjectiveValue setup0 x p params)
        || raisesb (Equilibrium.evalObjectiveGradX setup0 x p params)
        || (Equilibrium.eval_fxx opts
            && raisesb (Equilibrium.evalObjectiveHessianX setup0 x p params))
        || (Equilibrium.eval_fxp opts
            && raisesb (Equilibrium.evalObjectiveHessianP setup0 x p params))) /\
  (forall opts res,
      raisesb (fst (Equilibrium.constraint setup0 params x p opts res))
      = raisesb (Equilibrium.evalEquationConstraints setup0 x p params)
        || (Equilibrium.eval_ddx opts
            && raisesb (Equilibrium.evalEquationConstraintsGradX setup0 x p params))
        || (Equilibrium.eval_ddp opts
            && raisesb (Equilibrium.evalEquationConstraintsGradP setup0 x p params))) /\
  (forall opts res,
      match Equilibrium.evalObjectiveValue setup0 x p params with
      | Raised e => Equilibrium.objective setup0 params x p opts res = (Raised e, res)
      | Ok _ => True
      end) /\
  (forall opts res,
      match Equilibrium.evalEquationConstraints setup0 x p params with
      | Raised e => Equilibrium.constraint setup0 params x p opts res = (Raised e, res)
      | Ok _ => True
      end).
Proof.
  repeat split; intros opts res.
  - apply objective_flag.
  - apply constraint_flag.
  - apply objective_throws.
  - apply constraint_throws.
  - apply objective_rethrows.
  - apply constraint_rethrows.
Qed.

(** C1, as the specification words it, fails: at a composition with a
    negative amount the property model throws, the objective callback throws
    as well instead of returning, and the result object still says that the
    evaluation succeeded. *)
Lemma objective_failure_not_reported :
  Equilibrium.evalObjectiveValue (Collaborators := Samples.model) Samples.setup2 [(-1)%Q; 1%Q; 0%Q] [] []
  = Raised (RuntimeError "PropertyEvaluationFailed") /\
  Equilibrium.objective (C := Samples.model) Samples.setup2 [] [(-1)%Q; 1%Q; 0%Q] []
    {| Equilibrium.eval_fxx := false; Equilibrium.eval_fxp := false |} Samples.accepted
  = (Raised (RuntimeError "PropertyEvaluationFailed"), Samples.accepted) /\
  Equilibrium.res_succeeded
    (snd (Equilibrium.objective (C := Samples.model) Samples.setup2 [] [(-1)%Q; 1%Q; 0%Q] []
            {| Equilibrium.eval_fxx := false; Equilibrium.eval_fxp := false |}
            Samples.accepted))
  = true /\
  ~ (exists res',
        Equilibrium.objective (C := Samples.model) Samples.setup2 [] [(-1)%Q; 1%Q; 0%Q] []
          {| Equilibrium.eval_fxx := false; Equilibrium.eval_fxp := false |} Samples.accepted
        = (Ok tt, res') /\
        Equilibrium.res_succeeded res' = false).
Proof.
  repeat split.
  intros [res' [Hcall _]]. vm_compute in Hcall. discriminate.
Qed.

(** ** The equilibrium solver: one calculation *)

Section Solve.

Import Equilibrium.
Context {C : Collaborators}.

(** The steps of [updateOptProblem] one after the other. *)
Lemma updateOptProblem_unfold (state0 : ChemicalState) (conditions : EquilibriumConditions)
    (restrictions : EquilibriumRestrictions) (self : Impl) :
  updateOptProblem state0 conditions restrictions self =
  match conditions_params conditions with
  | Raised e => (Raised e, self)
  | Ok params =>
      (Ok tt,
       set_optproblem
         {| pb_dims := solver_optdims self;
            pb_f := objective (setup self) params;
            pb_v := constraint (setup self) params;
            pb_Aex := assembleMatrixAex (setup self);
            pb_Aep := assembleMatrixAep (setup self);
            pb_be := assembleVectorBe (setup self) conditions state0;
            pb_xlower := assembleLowerBoundsVector (setup self) restrictions state0;
            pb_xupper := assembleUpperBoundsVector (setup self) restrictions state0 |}
         (set_optdims (solver_optdims self) self))
  end.
Proof.
  unfold updateOptProblem, ebind, lift, modify.
  destruct (conditions_params conditions); reflexivity.
Qed.

(** What a successful [updateOptProblem] leaves in the solver. *)
Lemma updateOptProblem_ok (state0 : ChemicalState) (conditions : EquilibriumConditions)
    (restrictions : EquilibriumRestrictions) (self self1 : Impl) :
  updateOptProblem state0 conditions restrictions self = (Ok tt, self1) ->
  dims self1 = dims self /\
  optdims self1 = solver_optdims self /\
  pb_Aex (optproblem self1) = assembleMatrixAex (setup self) /\
  pb_Aep (optproblem self1) = assembleMatrixAep (setup self) /\
  pb_be (optproblem self1) = assembleVectorBe (setup self) conditions state0 /\
  pb_xlower (optproblem self1) = assembleLowerBoundsVector (setup self) restrictions state0 /\
  pb_xupper (optproblem self1) = assembleUpperBoundsVector (setup self) restrictions state0.
Proof.
  rewrite updateOptProblem_unfold.
  destruct (conditions_params conditions); intros H; inversion H; subst.
  repeat split.
Qed.

Lemma updateOptState_dims (state0 : ChemicalState) (self : Impl) :
  dims (updateOptState state0 self) = dims self.
Proof.
  unfold updateOptState. simpl.
  destruct (negb (dims_x (st_dims (optimaState state0)) =? Nx (dims self))); reflexivity.
Qed.

Lemma skipn_zeros (n m : nat) : skipn n (zeros m) = zeros (m - n).
Proof.
  unfold zeros. revert m. induction n as [| n IH]; intros [| m]; simpl; auto.
Qed.

Lemma head_assign_head (n : nat) (x v : VectorXd) :
  List.length v = n -> head n (assign_head n x v) = v.
Proof.
  intros Hv. subst n. unfold head, assign_head.
  rewrite firstn_all, firstn_app, firstn_all, Nat.sub_diag.
  simpl. apply app_nil_r.
Qed.

Lemma assign_head_exact (n : nat) (x v : VectorXd) :
  List.length v = n -> assign_head n x v = v ++ skipn n x.
Proof.
  intros Hv. subst n. unfold assign_head. now rewrite firstn_all.
Qed.

End Solve.

Section SolveClaims.

Import Equilibrium.
Context {C : Collaborators}.

(** C2, as the code has it.  In a [solve] call whose problem was assembled,
    the first [Nn] primal entries of the starting point are always the current
    species amounts of the state.  Where the state carries an iterate whose
    primal dimension is [Nx], the rest of that iterate is reused: its
    dimensions, its parameters and multipliers and the primal entries from
    [Nn] on.  Otherwise the starting point is a new iterate of the dimensions
    of the problem whose other entries are zero. *)
Theorem updateOptState_starting_point
    (self self1 : Impl) (state0 : ChemicalState)
    (conditions : EquilibriumConditions) (restrictions : EquilibriumRestrictions)
    (Hproblem : updateOptProblem state0 conditions restrictions self = (Ok tt, self1))
    (Hamounts : List.length (speciesAmounts state0) = Nn (dims self)) :
  head (Nn (dims self)) (st_x (optstate (updateOptState state0 self1)))
  = speciesAmounts state0 /\
  (dims_x (st_dims (optimaState state0)) = Nx (dims self) ->
   optstate (updateOptState state0 self1)
   = set_st_x (speciesAmounts state0 ++ skipn (Nn (dims self)) (st_x (optimaState state0)))
       (optimaState state0)) /\
  (dims_x (st_dims (optimaState state0)) <> Nx (dims self) ->
   optstate (updateOptState state0 self1)
   = set_st_x (speciesAmounts state0 ++ zeros (Nx (dims self) - Nn (dims self)))
       (OptimaState_new (solver_optdims self))).
Proof.
  rewrite updateOptProblem_unfold in Hproblem.
  destruct (conditions_params conditions) as [params | e]; inversion Hproblem; subst self1.
  clear Hproblem. unfold updateOptState. simpl.
  destruct (Nat.eqb_spec (dims_x (st_dims (optimaState state0))) (Nx (dims self)))
    as [Hsame | Hother]; simpl.
  - split; [now apply head_assign_head |].
    split; [| contradiction].
    intros _. now rewrite assign_head_exact.
  - split; [now apply head_assign_head |].
    split; [contradiction |].
    intros _. rewrite assign_head_exact by assumption.
    now rewrite skipn_zeros.
Qed.

(** C3.  In a [solve] call whose problem was assembled and whose optimizer
    returns, converged or not, the chemical state afterwards holds the first
    [Nn] entries of the final iterate as species amounts and the final
    iterate itself; the solver keeps that iterate as well and returns the
    result of the optimizer. *)
Theorem solve3_writes_back
    (self self1 : Impl) (state0 : ChemicalState)
    (conditions : EquilibriumConditions) (restrictions : EquilibriumRestrictions)
    (converged : bool) (iterations : nat) (iterate : OptimaState)
    (Hproblem : updateOptProblem state0 conditions restrictions self = (Ok tt, self1))
    (Hsolver : optsolver_solve (optproblem (updateOptState state0 self1))
                 (optstate (updateOptState state0 self1))
               = (Ok {| result_succeeded := converged; result_iterations := iterations |},
                  iterate)) :
  exists self',
    solve3 self state0 conditions restrictions
    = (Ok {| result_optima :=
               {| result_succeeded := converged; result_iterations := iterations |} |},
       self',
       {| state_system := state_system state0;
          temperature := temperature state0;
          pressure := pressure state0;
          speciesAmounts := head (Nn (dims self)) (st_x iterate);
          optimaState := iterate |}) /\
    optstate self' = iterate.
Proof.
  destruct (updateOptProblem_ok _ _ _ _ _ Hproblem) as [Hdims _].
  unfold solve3. rewrite Hproblem, Hsolver.
  eexists. split.
  - unfold updateChemicalState, setOptimaState, set_speciesAmounts, set_optstate.
    cbn [state_system temperature pressure speciesAmounts optimaState dims optstate].
    rewrite updateOptState_dims, Hdims. reflexivity.
  - reflexivity.
Qed.

(** Where the optimizer throws, for instance because a callback threw, the
    call throws as well and the chemical state is the one it was given. *)
Lemma solve3_optimizer_throws
    (self self1 : Impl) (state0 : ChemicalState)
    (conditions : EquilibriumConditions) (restrictions : EquilibriumRestrictions)
    (e : Exception) (iterate : OptimaState) :
  updateOptProblem state0 conditions restrictions self = (Ok tt, self1) ->
  optsolver_solve (optproblem (updateOptState state0 self1))
    (optstate (updateOptState state0 self1)) = (Raised e, iterate) ->
  solve3 self state0 conditions restrictions
  = (Raised e, set_optstate iterate (updateOptState state0 self1), state0).
Proof.
  intros Hproblem Hsolver. unfold solve3. now rewrite Hproblem, Hsolver.
Qed.

Lemma conditionsFixing_values (specs0 : EquilibriumSpecs) (T P : Q) :
  match SolveSpec.conditionsFixing specs0 T P with
  | Ok c =>
      conditions_value Temperature c = Some T /\
      conditions_value Pressure c = Some P /\
      cond_specs c = specs0
  | Raised _ => declared Temperature specs0 && declared Pressure specs0 = false
  end.
Proof.
  unfold SolveSpec.conditionsFixing, conditions_set. simpl.
  destruct (declared Temperature specs0); simpl; [| reflexivity].
  destruct (declared Pressure specs0); simpl; [| reflexivity].
  repeat split.
Qed.

(** C4.  [solve(state)] is the full form called with conditions that fix
    temperature and pressure at the values of the state and with no
    restriction, and [solve(state, conditions)] is the full form called with
    no restriction; the same holds for the public methods of
    [EquilibriumSolver]. *)
Theorem solve_overloads_delegate (self : Impl) (state : ChemicalState) :
  solve1 self state = SolveSpec.solve_state self state /\
  (forall conditions,
      solve2 self state conditions = SolveSpec.solve_state_conditions self state conditions) /\
  EquilibriumSolver_solve1 {| pimpl := self |} state
  = wrap (SolveSpec.solve_state self state) /\
  (forall conditions,
      EquilibriumSolver_solve2 {| pimpl := self |} state conditions
      = EquilibriumSolver_solve3 {| pimpl := self |} state conditions
          (SolveSpec.noRestriction (system self))) /\
  match SolveSpec.conditionsFixing (specs self) (temperature state) (pressure state) with
  | Ok c =>
      conditions_value Temperature c = Some (temperature state) /\
      conditions_value Pressure c = Some (pressure state) /\
      cond_specs c = specs self
  | Raised _ => declared Temperature (specs self) && declared Pressure (specs self) = false
  end /\
  restr_overrides (SolveSpec.noRestriction (system self)) = [].
Proof.
  split; [reflexivity |].
  split; [reflexivity |].
  split; [reflexivity |].
  split; [reflexivity |].
  split; [apply conditionsFixing_values | reflexivity].
Qed.

(** C6.  A solver constructed from a chemical system alone works on the
    specification that [defaultEquilibriumSpecs] returns for the system, in
    which temperature and pressure are the control variables. *)
Theorem fromSystem_specs_temperature_pressure
    (sys : ChemicalSystem) (solver : EquilibriumSolver)
    (Hnew : EquilibriumSolver_fromSystem sys = Ok solver) :
  specs (pimpl solver) = defaultEquilibriumSpecs sys /\
  system (pimpl solver) = sys /\
  controlVariables (specs (pimpl solver)) = [Temperature; Pressure] /\
  declared Temperature (specs (pimpl solver)) = true /\
  declared Pressure (specs (pimpl solver)) = true.
Proof.
  unfold EquilibriumSolver_fromSystem, Impl_new in Hnew. simpl in Hnew.
  match type of Hnew with
  | context [setOptions ?o ?s] =>
      pose proof (setOptions_keeps_specs o s) as [Hspecs [Hsystem _]];
      destruct (setOptions o s) as [[u | e] self']
  end; simpl in *; [| discriminate].
  inversion Hnew; subst solver. simpl.
  rewrite Hspecs, Hsystem. repeat split.
Qed.

End SolveClaims.

(** C2, as the specification words it, fails: the state carries an iterate of
    the dimension of the solver, and the calculation does not start from that
    iterate but from one whose first entries are the amounts of the state. *)
Lemma stored_iterate_not_reused_as_is :
  Equilibrium.dims_x (Equilibrium.st_dims (Equilibrium.optimaState Samples.touched_state))
  = Equilibrium.Nx (Equilibrium.dims Samples.impl2) /\
  Equilibrium.st_x (Equilibrium.optimaState Samples.touched_state) = [54%Q; 2%Q; 7%Q] /\
  Equilibrium.st_x
    (Equilibrium.optstate
       (Equilibrium.updateOptState Samples.touched_state
          (snd (Equilibrium.updateOptProblem (C := Samples.model) Samples.touched_state
                  Samples.conditions2 (Equilibrium.EquilibriumRestrictions_new Samples.sys2)
                  Samples.impl2))))
  = [55%Q; 1%Q; 7%Q] /\
  Equilibrium.optstate
    (Equilibrium.updateOptState Samples.touched_state
       (snd (Equilibrium.updateOptProblem (C := Samples.model) Samples.touched_state
               Samples.conditions2 (Equilibrium.EquilibriumRestrictions_new Samples.sys2)
               Samples.impl2)))
  <> Equilibrium.optimaState Samples.touched_state.
Proof.
  repeat split.
  intros H. apply (f_equal Equilibrium.st_x) in H. vm_compute in H. discriminate.
Qed.

Lemma updateOptState_starting_point_witness :
  Equilibrium.head 2
    (Equilibrium.st_x
       (Equilibrium.optstate
          (Equilibrium.updateOptState Samples.touched_state
             (snd (Equilibrium.updateOptProblem (C := Samples.model) Samples.touched_state
                     Samples.conditions2
                     (Equilibrium.EquilibriumRestrictions_new Samples.sys2)
                     Samples.impl2)))))
  = [55%Q; 1%Q].
Proof.
  exact (proj1
    (updateOptState_starting_point (C := Samples.model) Samples.impl2
       (snd (Equilibrium.updateOptProblem (C := Samples.model) Samples.touched_state
               Samples.conditions2 (Equilibrium.EquilibriumRestrictions_new Samples.sys2)
               Samples.impl2))
       Samples.touched_state Samples.conditions2
       (Equilibrium.EquilibriumRestrictions_new Samples.sys2)
       eq_refl eq_refl)).
Defined.

(** A calculation that does not converge still leaves its iterate in the
    chemical state. *)
Lemma solve3_writes_back_witness :
  exists self',
    Equilibrium.solve3 (C := Samples.model) Samples.impl2 Samples.fresh_state
      Samples.conditions2 (Equilibrium.EquilibriumRestrictions_new Samples.sys2)
    = (Ok {| Equilibrium.result_optima :=
               {| Equilibrium.result_succeeded := false;
                  Equilibrium.result_iterations := 1 |} |},
       self',
       {| Equilibrium.state_system := Samples.sys2;
          Equilibrium.temperature := (29815 # 100)%Q;
          Equilibrium.pressure := 100000%Q;
          Equilibrium.speciesAmounts := [55%Q; 1%Q];
          Equilibrium.optimaState :=
            {| Equilibrium.st_dims :=
                 {| Equilibrium.dims_x := 3; Equilibrium.dims_p := 2;
                    Equilibrium.dims_be := 1 |};
               Equilibrium.st_x := [55%Q; 1%Q; 0%Q];
               Equilibrium.st_p := [0%Q; 0%Q];
               Equilibrium.st_y := [0%Q];
               Equilibrium.st_z := [0%Q; 0%Q; 0%Q] |} |}) /\
    Equilibrium.optstate self'
    = {| Equilibrium.st_dims :=
           {| Equilibrium.dims_x := 3; Equilibrium.dims_p := 2; Equilibrium.dims_be := 1 |};
         Equilibrium.st_x := [55%Q; 1%Q; 0%Q];
         Equilibrium.st_p := [0%Q; 0%Q];
         Equilibrium.st_y := [0%Q];
         Equilibrium.st_z := [0%Q; 0%Q; 0%Q] |}.
Proof.
  exact (solve3_writes_back (C := Samples.model) Samples.impl2
    (snd (Equilibrium.updateOptProblem (C := Samples.model) Samples.fresh_state
            Samples.conditions2 (Equilibrium.EquilibriumRestrictions_new Samples.sys2)
            Samples.impl2))
    Samples.fresh_state Samples.conditions2
    (Equilibrium.EquilibriumRestrictions_new Samples.sys2)
    false 1
    {| Equilibrium.st_dims :=
         {| Equilibrium.dims_x := 3; Equilibrium.dims_p := 2; Equilibrium.dims_be := 1 |};
       Equilibrium.st_x := [55%Q; 1%Q; 0%Q];
       Equilibrium.st_p := [0%Q; 0%Q];
       Equilibrium.st_y := [0%Q];
       Equilibrium.st_z := [0%Q; 0%Q; 0%Q] |}
    eq_refl eq_refl).
Defined.

Lemma fromSystem_specs_temperature_pressure_witness :
  Equilibrium.controlVariables (Equilibrium.specs Samples.impl2)
  = [Equilibrium.Temperature; Equilibrium.Pressure].
Proof.
  exact (proj1 (proj2 (proj2
    (fromSystem_specs_temperature_pressure (C := Samples.model) Samples.sys2
       {| Equilibrium.pimpl := Samples.impl2 |} eq_refl)))).
Defined.


(** * Further properties of the equilibrium solver *)

Section OptionsMore.

Import Equilibrium.
Context {C : Collaborators}.

Lemma push_back_xnames_fold (l : list Species) (o : EquilibriumOptions) :
  let o' := fold_left (fun o sp => push_back_xname (species_name sp) o) l o in
  epsilon o' = epsilon o /\
  active (output (optima o')) = active (output (optima o)) /\
  xprefix (output (optima o')) = xprefix (output (optima o)) /\
  xnames (output (optima o')) = xnames (output (optima o)) ++ map species_name l.
Proof.
  revert o. induction l as [| sp l IH]; intros o; simpl.
  - repeat split. now rewrite app_nil_r.
  - destruct (IH (push_back_xname (species_name sp) o)) as [He [Ha [Hp Hn]]].
    simpl in *. rewrite He, Ha, Hp, Hn. repeat split.
    now rewrite <- app_assoc.
Qed.

(** X1.  Of two calls of [setOptions] only the last one counts: the solver
    ends as if the first call, accepted or rejected, had not happened. *)
Theorem setOptions_last_call_wins (first last : EquilibriumOptions) (self : Impl) :
  setOptions last (snd (setOptions first self)) = setOptions last self.
Proof.
  rewrite (setOptions_unfold first self). cbv zeta.
  destruct (Qle_bool (epsilon first) 0); [| destruct (active (output (optima first)))];
    rewrite !setOptions_unfold; cbv zeta; simpl;
    destruct (Qle_bool (epsilon last) 0); try reflexivity;
    destruct (active (output (optima last))); reflexivity.
Qed.

(** X2.  A call of [setOptions] with a positive tolerance and active output
    returns, and the solver then holds the options with the prefix "n" and
    with the names of the species of the system, in their order, after the
    names that were there; the problem setup holds the options as they were
    passed, without these names. *)
Theorem setOptions_names_the_variables (opts : EquilibriumOptions) (self : Impl)
    (Hpositive : (0 < epsilon opts)%Q)
    (Hactive : active (output (optima opts)) = true) :
  fst (setOptions opts self) = Ok tt /\
  epsilon (options (snd (setOptions opts self))) = epsilon opts /\
  xprefix (output (optima (options (snd (setOptions opts self))))) = "n" /\
  xnames (output (optima (options (snd (setOptions opts self)))))
  = xnames (output (optima opts)) ++ map species_name (species (system self)) /\
  setup_options (setup (snd (setOptions opts self))) = opts.
Proof.
  rewrite setOptions_unfold. cbv zeta.
  destruct (Qle_bool (epsilon opts) 0) eqn:E.
  - apply Qle_bool_iff in E. exfalso. exact (Qlt_not_le _ _ Hpositive E).
  - rewrite Hactive. simpl.
    destruct (push_back_xnames_fold (species (system self)) (set_xprefix "n" opts))
      as [He [_ [Hp Hn]]].
    simpl in *. rewrite He, Hp, Hn. repeat split.
Qed.

(** X3.  Whatever the options and whether it throws or not, [setOptions]
    changes nothing in the solver but its options and the options of its
    problem setup. *)
Theorem setOptions_frame (opts : EquilibriumOptions) (self : Impl) :
  system (snd (setOptions opts self)) = system self /\
  specs (snd (setOptions opts self)) = specs self /\
  dims (snd (setOptions opts self)) = dims self /\
  setup_specs (setup (snd (setOptions opts self))) = setup_specs (setup self) /\
  n0 (snd (setOptions opts self)) = n0 self /\
  optdims (snd (setOptions opts self)) = optdims self /\
  optproblem (snd (setOptions opts self)) = optproblem self /\
  optstate (snd (setOptions opts self)) = optstate self.
Proof.
  rewrite setOptions_unfold. cbv zeta.
  destruct (Qle_bool (epsilon opts) 0); [repeat split |].
  destruct (active (output (optima opts))); repeat split.
Qed.

End OptionsMore.

Lemma setOptions_names_the_variables_witness :
  Equilibrium.xnames
    (Equilibrium.output
       (Equilibrium.optima
          (Equilibrium.options
             (snd (Equilibrium.setOptions Samples.verbose_options
                     Samples.impl2)))))
  = ["old"; "H2O"; "CO2"].
Proof.
  refine (proj1 (proj2 (proj2 (proj2
    (setOptions_names_the_variables Samples.verbose_options
       Samples.impl2 _ _))))).
  - reflexivity.
  - reflexivity.
Defined.

Section CallbacksMore.

Import Equilibrium.
Context {C : Collaborators}.

Ltac run_callback :=
  unfold objective, constraint, ebind, lift, modify, when, eret; simpl.

(** X4.  When the objective callback returns, the result object holds the
    value and the gradient of this evaluation; each of the two Hessians is
    the one of this evaluation if it was asked for and is otherwise the one
    the result object held before the call. *)
Theorem objective_result_fields (setup0 : EquilibriumSetup) (params x p : VectorXd)
    (opts : ObjectiveOptions) (res : ObjectiveResult) :
  match objective setup0 params x p opts res with
  | (Ok _, res') =>
      evalObjectiveValue setup0 x p params = Ok (res_f res') /\
      evalObjectiveGradX setup0 x p params = Ok (res_fx res') /\
      (if eval_fxx opts
       then evalObjectiveHessianX setup0 x p params = Ok (res_fxx res')
       else res_fxx res' = res_fxx res) /\
      (if eval_fxp opts
       then evalObjectiveHessianP setup0 x p params = Ok (res_fxp res')
       else res_fxp res' = res_fxp res)
  | (Raised _, _) => True
  end.
Proof.
  run_callback.
  destruct (evalObjectiveValue setup0 x p params); [| exact I].
  destruct (evalObjectiveGradX setup0 x p params); [| exact I].
  destruct (eval_fxx opts); simpl;
    [destruct (evalObjectiveHessianX setup0 x p params); [| exact I] |];
    (destruct (eval_fxp opts); simpl;
     [destruct (evalObjectiveHessianP setup0 x p params); [| exact I] |];
     repeat split).
Qed.

(** X5.  When the constraint callback returns, the result object holds the
    residuals of this evaluation; each of the two Jacobians is the one of
    this evaluation if it was asked for and is otherwise the one the result
    object held before the call. *)
Theorem constraint_result_fields (setup0 : EquilibriumSetup) (params x p : VectorXd)
    (opts : ConstraintOptions) (res : ConstraintResult) :
  match constraint setup0 params x p opts res with
  | (Ok _, res') =>
      evalEquationConstraints setup0 x p params = Ok (res_val res') /\
      (if eval_ddx opts
       then evalEquationConstraintsGradX setup0 x p params = Ok (res_ddx res')
       else res_ddx res' = res_ddx res) /\
      (if eval_ddp opts
       then evalEquationConstraintsGradP setup0 x p params = Ok (res_ddp res')
       else res_ddp res' = res_ddp res)
  | (Raised _, _) => True
  end.
Proof.
  run_callback.
  destruct (evalEquationConstraints setup0 x p params); [| exact I].
  destruct (eval_ddx opts); simpl;
    [destruct (evalEquationConstraintsGradX setup0 x p params); [| exact I] |];
    (destruct (eval_ddp opts); simpl;
     [destruct (evalEquationConstraintsGradP setup0 x p params); [| exact I] |];
     repeat split).
Qed.

(** X6.  The objective callback writes as it goes: when the value can be
    evaluated and the gradient cannot, the callback throws and the result
    object is left with the new value beside the gradient, the Hessians and
    the flag it held before. *)
Theorem objective_keeps_value_of_failed_call (setup0 : EquilibriumSetup)
    (params x p : VectorXd) (opts : ObjectiveOptions) (res : ObjectiveResult)
    (f : Q) (e : Exception)
    (Hvalue : evalObjectiveValue setup0 x p params = Ok f)
    (Hgradient : evalObjectiveGradX setup0 x p params = Raised e) :
  objective setup0 params x p opts res
  = (Raised e,
     {| res_f := f; res_fx := res_fx res; res_fxx := res_fxx res;
        res_fxp := res_fxp res; res_succeeded := res_succeeded res |}).
Proof.
  run_callback. rewrite Hvalue, Hgradient. reflexivity.
Qed.

End CallbacksMore.

Lemma objective_keeps_value_of_failed_call_witness :
  Equilibrium.objective (C := Samples.model_without_gradient) Samples.setup2 []
    [55%Q; 1%Q; 0%Q] []
    {| Equilibrium.eval_fxx := false; Equilibrium.eval_fxp := false |} Samples.first_try
  = (Raised (RuntimeError "GradientUnavailable"),
     {| Equilibrium.res_f := (0 + (55 + (1 + 0)))%Q;
        Equilibrium.res_fx := []; Equilibrium.res_fxx := []; Equilibrium.res_fxp := [];
        Equilibrium.res_succeeded := false |}).
Proof.
  exact (objective_keeps_value_of_failed_call (C := Samples.model_without_gradient)
           Samples.setup2 [] [55%Q; 1%Q; 0%Q] []
           {| Equilibrium.eval_fxx := false; Equilibrium.eval_fxp := false |}
           Samples.first_try _ _ eq_refl eq_refl).
Defined.

Section SolveMore.

Import Equilibrium.
Context {C : Collaborators}.

(** What [updateOptState] leaves alone. *)
Lemma updateOptState_frame (state0 : ChemicalState) (self : Impl) :
  updateOptState state0 self
  = set_optstate (optstate (updateOptState state0 self)) self.
Proof.
  unfold updateOptState. simpl.
  destruct (negb (dims_x (st_dims (optimaState state0)) =? Nx (dims self))); reflexivity.
Qed.

(** The chemical state after a [solve] call: the one that
    [updateChemicalState] writes where the call returns, the given one where
    it throws. *)
Lemma solve3_state_shape (self : Impl) (state0 : ChemicalState)
    (conditions : EquilibriumConditions) (restrictions : EquilibriumRestrictions) :
  match solve3 self state0 conditions restrictions with
  | (Ok _, self', state') => state' = updateChemicalState self' state0
  | (Raised _, _, state') => state' = state0
  end.
Proof.
  unfold solve3.
  destruct (updateOptProblem state0 conditions restrictions self) as [[u | e] self1];
    [| reflexivity].
  destruct (optsolver_solve _ _) as [[result | e] iterate]; reflexivity.
Qed.

(** X7.  A [solve] call that throws, be it while the problem is assembled or
    inside the optimizer, returns the chemical state exactly as it was
    given. *)
Theorem solve3_throws_state_untouched (self : Impl) (state0 : ChemicalState)
    (conditions : EquilibriumConditions) (restrictions : EquilibriumRestrictions) :
  match solve3 self state0 conditions restrictions with
  | (Raised _, _, state') => state' = state0
  | (Ok _, _, _) => True
  end.
Proof.
  pose proof (solve3_state_shape self state0 conditions restrictions) as Hshape.
  destruct (solve3 self state0 conditions restrictions) as [[[result | e] self'] state'].
  - exact I.
  - exact Hshape.
Qed.

(** X8.  Whatever its outcome, a [solve] call leaves the temperature, the
    pressure and the system of the chemical state as they were: it writes
    species amounts and the iterate only. *)
Theorem solve3_keeps_temperature_pressure (self : Impl) (state0 : ChemicalState)
    (conditions : EquilibriumConditions) (restrictions : EquilibriumRestrictions) :
  temperature (snd (solve3 self state0 conditions restrictions)) = temperature state0 /\
  pressure (snd (solve3 self state0 conditions restrictions)) = pressure state0 /\
  state_system (snd (solve3 self state0 conditions restrictions)) = state_system state0.
Proof.
  pose proof (solve3_state_shape self state0 conditions restrictions) as Hshape.
  destruct (solve3 self state0 conditions restrictions) as [[[result | e] self'] state'];
    simpl; subst state'; repeat split.
Qed.

(** X9.  Whatever its outcome, a [solve] call leaves the configuration of the
    solver as it was: system, specification, dimensions, problem setup and
    options. *)
Theorem solve3_keeps_configuration (self : Impl) (state0 : ChemicalState)
    (conditions : EquilibriumConditions) (restrictions : EquilibriumRestrictions) :
  let self' := snd (fst (solve3 self state0 conditions restrictions)) in
  system self' = system self /\
  specs self' = specs self /\
  dims self' = dims self /\
  setup self' = setup self /\
  options self' = options self /\
  n0 self' = n0 self.
Proof.
  unfold solve3. rewrite updateOptProblem_unfold.
  destruct (conditions_params conditions) as [params | e]; [| repeat split].
  match goal with
  | |- context [updateOptState state0 ?s] =>
      rewrite (updateOptState_frame state0 s); generalize (optstate (updateOptState state0 s))
  end.
  intros start.
  destruct (optsolver_solve _ _) as [[result | e] iterate]; repeat split.
Qed.

Lemma assign_head_of_head (n : nat) (x : VectorXd) :
  assign_head n x (head n x) = x.
Proof.
  unfold assign_head, head. rewrite firstn_firstn, Nat.min_id. apply firstn_skipn.
Qed.

(** X10.  Writing an iterate into a chemical state and reading it back gives
    the iterate again: when the iterate has the primal dimension of the
    solver, a calculation on the state that [updateChemicalState] produced
    starts exactly from it. *)
Theorem warm_start_round_trip (self next : Impl) (state : ChemicalState)
    (Hdims : dims next = dims self)
    (Hsame : dims_x (st_dims (optstate self)) = Nx (dims self)) :
  optstate (updateOptState (updateChemicalState self state) next) = optstate self.
Proof.
  unfold updateOptState, updateChemicalState. simpl.
  rewrite Hdims, Hsame, Nat.eqb_refl. simpl.
  rewrite Hdims, assign_head_of_head.
  destruct (optstate self); reflexivity.
Qed.

(** X11.  What earlier calculations left in the solver (dimensions, problem
    and iterate of the optimizer) is overwritten before it is read: the
    problem and the starting point handed to the optimizer are the same
    whatever was left, and so are, for an optimizer that depends on what it
    is handed only, the outcome of the call and the chemical state it
    produces. *)
Theorem solve3_ignores_leftovers (self : Impl) (state0 : ChemicalState)
    (conditions : EquilibriumConditions) (restrictions : EquilibriumRestrictions)
    (d : OptimaDims) (problem : OptimaProblem) (iterate : OptimaState) :
  let used := set_optstate iterate (set_optproblem problem (set_optdims d self)) in
  match conditions_params conditions with
  | Ok _ =>
      optproblem (updateOptState state0
                    (snd (updateOptProblem state0 conditions restrictions used)))
      = optproblem (updateOptState state0
                      (snd (updateOptProblem state0 conditions restrictions self))) /\
      optstate (updateOptState state0
                  (snd (updateOptProblem state0 conditions restrictions used)))
      = optstate (updateOptState state0
                    (snd (updateOptProblem state0 conditions restrictions self)))
  | Raised _ => True
  end /\
  fst (fst (solve3 used state0 conditions restrictions))
  = fst (fst (solve3 self state0 conditions restrictions)) /\
  snd (solve3 used state0 conditions restrictions)
  = snd (solve3 self state0 conditions restrictions).
Proof.
  cbv zeta. unfold solve3. rewrite !updateOptProblem_unfold.
  destruct (conditions_params conditions) as [params | e]; repeat split; reflexivity.
Qed.

End SolveMore.

Lemma warm_start_round_trip_witness :
  Equilibrium.optstate
    (Equilibrium.updateOptState
       (Equilibrium.updateChemicalState Samples.impl2_solved Samples.fresh_state)
       Samples.impl2)
  = Samples.earlier_iterate.
Proof.
  exact (warm_start_round_trip Samples.impl2_solved Samples.impl2 Samples.fresh_state
           eq_refl eq_refl).
Defined.


(** * Further properties of the phases *)

Section PhasesMore.

Import Phases.

Variable Database : Type.
Variable speciesElementSymbols : Database -> Strings -> list Strings.
Variable merge : Strings -> Strings -> Strings.
Variable makeunique : Strings -> string -> Strings.
Variable GenericPhases_convert : Database -> Strings -> GenericPhases -> list GenericPhase.

Abbreviation collect := (collectElements Database speciesElementSymbols merge).
Abbreviation collect1 := (collectElements1 Database speciesElementSymbols merge).
Abbreviation appendAll := (appendPhases Database GenericPhases_convert).
Abbreviation construct :=
  (Phases_new Database speciesElementSymbols merge makeunique GenericPhases_convert).

Lemma renamePhases_keeps_the_rest (phases : list GenericPhase) :
  forall i phasenames,
    map (setName "") (renamePhases i phasenames phases) = map (setName "") phases.
Proof.
  induction phases as [| ph phases IH]; intros i phasenames; simpl.
  - reflexivity.
  - now rewrite IH.
Qed.


Lemma collectElements1_frame (arg : PhaseArg) (self : Phases Database) :
  database (collect1 arg self) = database self /\
  genericphases (collect1 arg self) = genericphases self.
Proof. split; reflexivity. Qed.

Lemma collectElements_frame (args : list PhaseArg) :
  forall arg self,
    database (collect arg args self) = database self /\
    genericphases (collect arg args self) = genericphases self.
Proof.
  induction args as [| arg' args IH]; intros arg self; simpl.
  - split; reflexivity.
  - destruct (IH arg' (collect1 arg self)) as [Hd Hg]. now rewrite Hd, Hg.
Qed.

Lemma append_spec (arg : PhaseArg) (self : Phases Database) :
  database (append Database GenericPhases_convert arg self) = database self /\
  elements (append Database GenericPhases_convert arg self) = elements self /\
  genericphases (append Database GenericPhases_convert arg self)
  = genericphases self
    ++ phasesOf GenericPhases_convert (database self) (elements self) arg.
Proof. destruct arg; repeat split. Qed.

Lemma appendPhases_spec (args : list PhaseArg) :
  forall arg self,
    database (appendAll arg args self) = database self /\
    elements (appendAll arg args self) = elements self /\
    genericphases (appendAll arg args self)
    = genericphases self
      ++ flat_map (phasesOf GenericPhases_convert (database self) (elements self))
           (arg :: args).
Proof.
  induction args as [| arg' args IH]; intros arg self.
  - destruct (append_spec arg self) as [Hd [He Hg]].
    simpl. rewrite app_nil_r. repeat split; assumption.
  - destruct (append_spec arg self) as [Hd [He Hg]].
    destruct (IH arg' (append Database GenericPhases_convert arg self)) as [Hd' [He' Hg']].
    change (appendAll arg (arg' :: args) self)
      with (appendAll arg' args (append Database GenericPhases_convert arg self)).
    rewrite Hd', He', Hg', Hd, He, Hg.
    repeat split. change (flat_map ?f (arg :: ?l)) with (f arg ++ flat_map f l).
    now rewrite <- app_assoc.
Qed.

Lemma Phases_new_elements (db : Database) (arg : PhaseArg) (args : list PhaseArg) :
  elements (construct db arg args)
  = elements (collect arg args (mkPhases Database db [] [])).
Proof.
  unfold Phases_new, fixDuplicatePhaseNames. simpl.
  now destruct (appendPhases_spec args arg (collect arg args (mkPhases Database db [] [])))
    as [_ [He _]].
Qed.

(** X13.  The constructor of [Phases] first collects the element symbols of
    all its arguments and only then appends the phases.  The phases it holds
    are, names apart, those of its arguments in the order of the arguments,
    a [GenericPhases] argument standing for the phases it converts to; and
    every such conversion is given the element symbols of all arguments,
    those of later arguments included. *)
Theorem Phases_new_phases_in_order (db : Database) (arg : PhaseArg) (args : list PhaseArg) :
  let all := elements (collect arg args (mkPhases Database db [] [])) in
  elements (construct db arg args) = all /\
  database (construct db arg args) = db /\
  map (setName "") (genericphases (construct db arg args))
  = map (setName "") (flat_map (phasesOf GenericPhases_convert db all) (arg :: args)).
Proof.
  intros all. unfold Phases_new.
  set (collected := collect arg args (mkPhases Database db [] [])).
  destruct (collectElements_frame args arg (mkPhases Database db [] [])) as [Hd Hg].
  destruct (appendPhases_spec args arg collected) as [Hd' [He' Hg']].
  fold collected in Hd, Hg. simpl in Hd, Hg.
  unfold fixDuplicatePhaseNames. simpl.
  rewrite renamePhases_keeps_the_rest, He', Hd', Hd, Hg', Hg, Hd. simpl.
  repeat split.
Qed.

Section MergeKeeps.

(** [merge] keeps the items of both containers. *)
Hypothesis merge_keeps : forall a b x, In x a \/ In x b -> In x (merge a b).

Lemma fold_merge_keeps (lists : list Strings) :
  forall acc x,
    In x acc \/ (exists l, In l lists /\ In x l) -> In x (fold_left merge lists acc).
Proof.
  induction lists as [| l lists IH]; intros acc x H; simpl.
  - destruct H as [H | [l [[] _]]]. exact H.
  - apply IH. destruct H as [H | [l' [[<- | Hl'] Hx]]].
    + left. apply merge_keeps. now left.
    + left. apply merge_keeps. now right.
    + right. now exists l'.
Qed.

Lemma collectElements1_keeps (arg : PhaseArg) (self : Phases Database) (x : string) :
  In x (elements self) -> In x (elements (collect1 arg self)).
Proof.
  intros Hx. unfold collectElements1. simpl.
  assert (H1 : In x (if 0 <? List.length (arg_elements arg)
                     then merge (elements self) (arg_elements arg)
                     else elements self)).
  { destruct (0 <? List.length (arg_elements arg)); [apply merge_keeps; now left | exact Hx]. }
  destruct (0 <? List.length (arg_species arg)); [| exact H1].
  apply fold_merge_keeps. now left.
Qed.

Lemma collectElements1_adds (arg : PhaseArg) (self : Phases Database) (x : string) :
  In x (arg_elements arg) \/
  (arg_species arg <> [] /\
   exists l, In l (speciesElementSymbols (database self) (arg_species arg)) /\ In x l) ->
  In x (elements (collect1 arg self)).
Proof.
  intros H. unfold collectElements1. simpl.
  destruct H as [Hx | [Hspecies [l [Hl Hx]]]].
  - assert (H1 : In x (if 0 <? List.length (arg_elements arg)
                       then merge (elements self) (arg_elements arg)
                       else elements self)).
    { destruct (arg_elements arg) as [| s rest] eqn:E; [contradiction |].
      simpl. apply merge_keeps. now right. }
    destruct (0 <? List.length (arg_species arg)); [| exact H1].
    apply fold_merge_keeps. now left.
  - destruct (arg_species arg) as [| s rest] eqn:E; [congruence |].
    simpl. apply fold_merge_keeps. right. now exists l.
Qed.

Lemma collectElements_keeps (args : list PhaseArg) :
  forall arg self x, In x (elements self) -> In x (elements (collect arg args self)).
Proof.
  induction args as [| arg' args IH]; intros arg self x Hx; simpl.
  - now apply collectElements1_keeps.
  - apply IH. now apply collectElements1_keeps.
Qed.

Lemma collectElements_covers (args : list PhaseArg) :
  forall arg self a x,
    In a (arg :: args) ->
    In x (arg_elements a) \/
    (arg_species a <> [] /\
     exists l, In l (speciesElementSymbols (database self) (arg_species a)) /\ In x l) ->
    In x (elements (collect arg args self)).
Proof.
  induction args as [| arg' args IH]; intros arg self a x Ha Hx.
  - destruct Ha as [<- | []]. simpl. now apply collectElements1_adds.
  - change (collect arg (arg' :: args) self) with (collect arg' args (collect1 arg self)).
    destruct Ha as [<- | Ha].
    + apply collectElements_keeps. now apply collectElements1_adds.
    + apply (IH arg' (collect1 arg self) a x Ha). exact Hx.
Qed.

(** X14.  Provided [merge] keeps the items of both its arguments, the
    element symbols of a [Phases] object cover its arguments: every symbol
    that an argument gives, and every symbol of every species that the
    database returns for the species names of an argument that has any, is
    among them. *)
Theorem Phases_new_elements_cover (db : Database) (arg : PhaseArg) (args : list PhaseArg)
    (a : PhaseArg) (x : string)
    (Harg : In a (arg :: args))
    (Hsymbol :
       In x (arg_elements a) \/
       (arg_species a <> [] /\
        exists l, In l (speciesElementSymbols db (arg_species a)) /\ In x l)) :
  In x (elements (construct db arg args)).
Proof.
  rewrite Phases_new_elements.
  apply (collectElements_covers args arg _ a x Harg). exact Hsymbol.
Qed.

End MergeKeeps.

End PhasesMore.

Lemma Phases_new_elements_cover_witness :
  In "Ca"
    (Phases.elements
       (Phases.Phases_new Samples.Database Samples.speciesElementSymbols Samples.merge
          Phases.makeunique_model Samples.GenericPhases_convert Samples.water_db
          (Phases.OnePhase Phases.AqueousSolution)
          [Phases.ManyPhases (Phases.Minerals_species ["Calcite"])])).
Proof.
  refine (Phases_new_elements_cover Samples.Database Samples.speciesElementSymbols
            Samples.merge Phases.makeunique_model Samples.GenericPhases_convert _
            Samples.water_db (Phases.OnePhase Phases.AqueousSolution)
            [Phases.ManyPhases (Phases.Minerals_species ["Calcite"])]
            (Phases.ManyPhases (Phases.Minerals_species ["Calcite"])) "Ca" _ _).
  - intros a b x [Ha | Hb]; unfold Samples.merge; apply in_or_app.
    + now left.
    + destruct (existsb (String.eqb x) a) eqn:E.
      * left. now apply oneof_In.
      * right. apply filter_In. split; [exact Hb | now rewrite E].
  - right. now left.
  - right. split; [discriminate |].
    exists ["Ca"; "C"; "O"]. split; [now left | now left].
Defined.

(** * Further properties of the NASA database loader *)

(** X15.  Loading by name reads the embedded file system at the paths of the
    three databases only: two file systems that agree on these three paths
    give the same content and the same database for every name, whatever
    else they hold. *)
Theorem getNasaDatabaseContent_reads_three_paths
    (NasaDatabase : Type) (parseSpecies : string -> Outcome NasaDatabase)
    (embedded1 embedded2 : string -> option string)
    (Hagree : forall name, In name Nasa.supportedNames ->
                embedded1 (Nasa.embeddedPath name) = embedded2 (Nasa.embeddedPath name))
    (name : string) :
  Nasa.getNasaDatabaseContent embedded1 name = Nasa.getNasaDatabaseContent embedded2 name /\
  Nasa.withName parseSpecies embedded1 name = Nasa.withName parseSpecies embedded2 name.
Proof.
  assert (H : Nasa.getNasaDatabaseContent embedded1 name
              = Nasa.getNasaDatabaseContent embedded2 name).
  { unfold Nasa.getNasaDatabaseContent.
    destruct (oneof name Nasa.supportedNames) eqn:E; [| reflexivity].
    apply oneof_In in E. simpl. unfold Nasa.fs_open. now rewrite (Hagree name E). }
  split; [exact H |]. unfold Nasa.withName. now rewrite H.
Qed.

Lemma getNasaDatabaseContent_reads_three_paths_witness :
  Nasa.getNasaDatabaseContent
    (fun path => if String.eqb path "databases/nasa/../../etc/passwd.dat"
                 then Some "root" else Samples.embedded path)
    "../../etc/passwd"
  = Nasa.getNasaDatabaseContent Samples.embedded "../../etc/passwd".
Proof.
  refine (proj1
    (getNasaDatabaseContent_reads_three_paths (list string) Samples.parseSpecies
       (fun path => if String.eqb path "databases/nasa/../../etc/passwd.dat"
                    then Some "root" else Samples.embedded path)
       Samples.embedded _ "../../etc/passwd")).
  intros name [<- | [<- | [<- | []]]]; reflexivity.
Defined.

(** X16.  Loading from a file gives what loading by name gives, whenever the
    file holds the text that is embedded for the supported name. *)
Theorem fromFile_agrees_with_withName
    (NasaDatabase : Type) (parseSpecies : string -> Outcome NasaDatabase)
    (embedded files : string -> option string)
    (name path contents : string)
    (Hname : In name Nasa.supportedNames)
    (Hembedded : embedded (Nasa.embeddedPath name) = Some contents)
    (Hfile : files path = Some contents) :
  Nasa.fromFile parseSpecies files path = Nasa.withName parseSpecies embedded name.
Proof.
  unfold Nasa.fromFile, Nasa.withName. rewrite Hfile.
  rewrite (getNasaDatabaseContent_supported name Hname).
  unfold Nasa.fs_open. rewrite Hembedded. reflexivity.
Qed.

Lemma fromFile_agrees_with_withName_witness :
  Nasa.fromFile Samples.parseSpecies
    (fun path => if String.eqb path "/tmp/burcat.dat" then Some "burcat-species" else None)
    "/tmp/burcat.dat"
  = Nasa.withName Samples.parseSpecies Samples.embedded "burcat".
Proof.
  refine (fromFile_agrees_with_withName (list string) Samples.parseSpecies Samples.embedded
            (fun path => if String.eqb path "/tmp/burcat.dat"
                         then Some "burcat-species" else None)
            "burcat" "/tmp/burcat.dat" "burcat-species" _ eq_refl eq_refl).
  right. right. now left.
Defined.

(** * Properties of the Palandri-Kharaka rate model *)

Section RateModel.

Import PalandriKharaka.
Context {A : Arithmetic} {K : Chemistry}.

Lemma indexfn_find {T : Type} (pred : T -> bool) (items : list T) :
  match find pred items with
  | Some item => nth_error items (indexfn items pred) = Some item /\
                 indexfn items pred < List.length items
  | None => indexfn items pred = List.length items
  end.
Proof.
  induction items as [| item items IH]; simpl; [reflexivity |].
  destruct (pred item); simpl.
  - split; [reflexivity | lia].
  - destruct (find pred items); simpl.
    + destruct IH as [Hnth Hlt]. split; [exact Hnth | lia].
    + now rewrite IH.
Qed.

(** X17.  The generator for several sets of parameters serves a mineral
    with the first set, in the order given, that lists the name of the
    mineral, and it throws where no set lists it. *)
Theorem vec_generator_uses_first_match (paramsvec : list Params) (mineral : string)
    (phases : PhaseList) :
  ReactionRateModelPalandriKharaka_vec paramsvec mineral phases
  = match find (fun x => contains (names x) mineral) paramsvec with
    | Some params => ReactionRateModelPalandriKharaka params mineral phases
    | None =>
        Raised (RuntimeError
                  ("Could not find a mineral with name `" ++ mineral
                   ++ "` in the provided set of Palandri-Kharaka parameters."))
    end.
Proof.
  unfold ReactionRateModelPalandriKharaka_vec, errorif, error.
  pose proof (indexfn_find (fun x => contains (names x) mineral) paramsvec) as H.
  destruct (find (fun x => contains (names x) mineral) paramsvec) as [params |].
  - destruct H as [Hnth Hlt].
    replace (List.length paramsvec <=? _) with false
      by (symmetry; apply Nat.leb_gt; exact Hlt).
    simpl. now rewrite Hnth.
  - rewrite H, Nat.leb_refl. reflexivity.
Qed.

Lemma collect_raises_iff {T U : Type} (f : T -> Outcome U) (items : list T) :
  raises (collect f items) <-> exists item, In item items /\ raises (f item).
Proof.
  induction items as [| item items IH]; simpl.
  - split; [intros [e He]; discriminate | intros [item [[] _]]].
  - destruct (f item) as [b | e] eqn:Ef; simpl.
    + destruct (collect f items) as [bs | e] eqn:Ec; simpl.
      * split; [intros [e He]; discriminate |].
        intros [item' [[<- | Hin] [e He]]]; [congruence |].
        assert (Hr : raises (@Ok (list U) bs)) by (apply IH; exists item'; split; [exact Hin | now exists e]).
        destruct Hr as [e' He']. discriminate.
      * split; [| intros _; now exists e].
        intros _. destruct (proj1 IH (ex_intro _ e eq_refl)) as [item' [Hin Hr]].
        exists item'. split; [now right | exact Hr].
    + split; [| intros _; now exists e].
      intros _. exists item. split; [now left | exists e; exact Ef].
Qed.

Lemma mineralCatalystFn_raises_iff (catalyst : Catalyst) (phases : PhaseList) :
  raises (mineralCatalystFn catalyst phases) <->
  knownProperty catalyst = false \/
  raises (speciesIndex phases (catalystPhase catalyst) (formula catalyst)).
Proof.
  unfold mineralCatalystFn, knownProperty, catalystPhase,
    mineralCatalystFnActivity, mineralCatalystFnPartialPressure.
  destruct (String.eqb (property catalyst) "a"); simpl.
  - destruct (speciesIndex phases Phases.AggregateState_Aqueous (formula catalyst))
      as [i | err]; simpl.
    + split; [intros [x Hx]; discriminate | intros [H | [x Hx]]; discriminate].
    + split; [intros _; right; now exists err | intros _; now exists err].
  - destruct (String.eqb (property catalyst) "P"); simpl.
    + destruct (speciesIndex phases Phases.AggregateState_Gas (formula catalyst))
        as [i | err]; simpl.
      * split; [intros [x Hx]; discriminate | intros [H | [x Hx]]; discriminate].
      * split; [intros _; right; now exists err | intros _; now exists err].
    + split; [intros _; now left | intros _; now eexists].
Qed.

(** X18.  Building the rate model of a mineral from one set of parameters
    throws exactly when one of the catalysts of one of its mechanisms has a
    property symbol other than "a" and "P", or names a species that is not
    found in the aqueous phase (for "a") or in the gaseous phase (for "P");
    the name of the mineral plays no part. *)
Theorem generator_raises_iff (params : Params) (mineral : string) (phases : PhaseList) :
  raises (ReactionRateModelPalandriKharaka params mineral phases) <->
  exists mechanism catalyst,
    In mechanism (mechanisms params) /\
    In catalyst (catalysts mechanism) /\
    (knownProperty catalyst = false \/
     raises (speciesIndex phases (catalystPhase catalyst) (formula catalyst))).
Proof.
  unfold ReactionRateModelPalandriKharaka.
  assert (Hmech : forall mechanism,
             raises (mineralMechanismFn mechanism phases) <->
             exists catalyst, In catalyst (catalysts mechanism) /\
               raises (mineralCatalystFn catalyst phases)).
  { intros mechanism. unfold mineralMechanismFn.
    rewrite <- collect_raises_iff.
    destruct (collect _ (catalysts mechanism)) as [fns | err]; simpl;
      split; intros [x Hx]; try discriminate; now exists err. }
  assert (Hall : raises (collect (fun mechanism => mineralMechanismFn mechanism phases)
                           (mechanisms params)) <->
                 exists mechanism catalyst,
                   In mechanism (mechanisms params) /\
                   In catalyst (catalysts mechanism) /\
                   (knownProperty catalyst = false \/
                    raises (speciesIndex phases (catalystPhase catalyst) (formula catalyst)))).
  { rewrite collect_raises_iff. split.
    - intros [mechanism [Hin Hr]]. apply Hmech in Hr. destruct Hr as [catalyst [Hc Hr]].
      exists mechanism, catalyst. repeat split; try assumption.
      now apply mineralCatalystFn_raises_iff.
    - intros [mechanism [catalyst [Hin [Hc Hr]]]].
      exists mechanism. split; [exact Hin |]. apply Hmech.
      exists catalyst. split; [exact Hc |]. now apply mineralCatalystFn_raises_iff. }
  rewrite <- Hall.
  destruct (collect _ (mechanisms params)) as [fns | err]; simpl;
    split; intros [x Hx]; try discriminate; now exists err.
Qed.

End RateModel.

(** The generator on the sample parameters: calcite is served, under either
    of its names; halite has a catalyst with the property symbol "m";
    quartz is listed nowhere. *)
Example vec_generator_samples :
  raisesb
    (PalandriKharaka.ReactionRateModelPalandriKharaka_vec (K := Samples.chemistry)
       [Samples.halite_params; Samples.calcite_params] "CaCO3" Samples.brine_and_gas)
  = false /\
  raises
    (PalandriKharaka.ReactionRateModelPalandriKharaka_vec (K := Samples.chemistry)
       [Samples.halite_params; Samples.calcite_params] "Halite" Samples.brine_and_gas) /\
  PalandriKharaka.ReactionRateModelPalandriKharaka_vec (K := Samples.chemistry)
    [Samples.halite_params; Samples.calcite_params] "Quartz" Samples.brine_and_gas
  = Raised (RuntimeError
      "Could not find a mineral with name `Quartz` in the provided set of Palandri-Kharaka parameters.").
Proof.
  split; [reflexivity |]. split; [| reflexivity].
  eexists. reflexivity.
Qed.

(** * Further properties: what a calculation throws and what a loader throws *)

Section Outcomes.

Import Equilibrium.
Context {C : Collaborators}.

(** X19.  A [solve] call throws nothing of its own: it throws what
    [conditions.params()] throws, leaving solver and state as they were, or
    what the optimizer throws; and where the optimizer returns, the call
    returns the result of the optimizer, converged or not. *)
Theorem solve3_outcome (self : Impl) (state0 : ChemicalState)
    (conditions : EquilibriumConditions) (restrictions : EquilibriumRestrictions) :
  match conditions_params conditions with
  | Raised e => solve3 self state0 conditions restrictions = (Raised e, self, state0)
  | Ok _ =>
      fst (fst (solve3 self state0 conditions restrictions))
      = match fst (optsolver_solve
                     (optproblem (updateOptState state0
                        (snd (updateOptProblem state0 conditions restrictions self))))
                     (optstate (updateOptState state0
                        (snd (updateOptProblem state0 conditions restrictions self))))) with
        | Ok result => Ok {| result_optima := result |}
        | Raised e => Raised e
        end
  end.
Proof.
  unfold solve3. rewrite updateOptProblem_unfold.
  destruct (conditions_params conditions) as [params | e]; [| reflexivity].
  cbn [snd].
  destruct (optsolver_solve _ _) as [[result | e] iterate]; reflexivity.
Qed.

End Outcomes.

(** X20.  Loading the content of a database by name throws the error of
    the embedded file system exactly when the name is one of the three
    supported names and no file is embedded under the path of that
    database; the error then carries this path. *)
Theorem getNasaDatabaseContent_missing_file
    (embedded : string -> option string) (name path : string) :
  Nasa.getNasaDatabaseContent embedded name = Raised (SystemError path) <->
  In name Nasa.supportedNames /\
  embedded (Nasa.embeddedPath name) = None /\
  path = Nasa.embeddedPath name.
Proof.
  unfold Nasa.getNasaDatabaseContent.
  destruct (oneof name Nasa.supportedNames) eqn:E; simpl.
  - apply oneof_In in E. unfold Nasa.fs_open.
    destruct (embedded (Nasa.embeddedPath name)) as [contents |].
    + split; [discriminate | intros [_ [H _]]; discriminate].
    + split.
      * intros H. inversion H. repeat split. exact E.
      * intros [_ [_ ->]]. reflexivity.
  - split; [discriminate |].
    intros [Hin _]. apply (proj2 (oneof_In name Nasa.supportedNames)) in Hin. congruence.
Qed.

(** * Further properties: aqueous solutions and the overloads of [solve] *)

Lemma Samples_merge_keeps (a b : list string) (x : string) :
  In x a \/ In x b -> In x (Samples.merge a b).
Proof.
  intros [Ha | Hb]; unfold Samples.merge; apply in_or_app.
  - now left.
  - destruct (existsb (String.eqb x) a) eqn:E.
    + left. now apply oneof_In.
    + right. apply filter_In. split; [exact Hb | now rewrite E].
Qed.

(** X21.  Provided [merge] keeps the items of both its arguments, an
    aqueous solution specified by element symbols has hydrogen and oxygen
    among its symbols beside all the symbols it was given, and hence a
    [Phases] object built with it has them among its elements. *)
Theorem AqueousSolution_speciate_has_water_elements
    (Database : Type)
    (speciesElementSymbols : Database -> Phases.Strings -> list Phases.Strings)
    (merge : Phases.Strings -> Phases.Strings -> Phases.Strings)
    (makeunique : Phases.Strings -> string -> Phases.Strings)
    (GenericPhases_convert :
       Database -> Phases.Strings -> Phases.GenericPhases -> list Phases.GenericPhase)
    (merge_keeps : forall a b x, In x a \/ In x b -> In x (merge a b))
    (given : Phases.Strings) (db : Database) (others : list Phases.PhaseArg) (x : string)
    (Hx : x = "H" \/ x = "O" \/ In x given) :
  In x (Phases.symbols (Phases.AqueousSolution_speciate merge (Phases.speciate given))) /\
  In x (Phases.elements
          (Phases.Phases_new Database speciesElementSymbols merge makeunique
             GenericPhases_convert db
             (Phases.OnePhase
                (Phases.AqueousSolution_speciate merge (Phases.speciate given)))
             others)).
Proof.
  assert (H : In x (Phases.symbols
                      (Phases.AqueousSolution_speciate merge (Phases.speciate given)))).
  { simpl. apply merge_keeps.
    destruct Hx as [-> | [-> | Hx]]; [right; now left | right; right; now left | now left]. }
  split; [exact H |].
  rewrite Phases_new_elements.
  apply (collectElements_covers Database speciesElementSymbols merge merge_keeps others _ _
           (Phases.OnePhase (Phases.AqueousSolution_speciate merge (Phases.speciate given)))).
  - now left.
  - left. exact H.
Qed.

Lemma AqueousSolution_speciate_has_water_elements_witness :
  In "O"
    (Phases.symbols (Phases.AqueousSolution_speciate Samples.merge (Phases.speciate ["Na"; "Cl"]))).
Proof.
  exact (proj1
    (AqueousSolution_speciate_has_water_elements Samples.Database
       Samples.speciesElementSymbols Samples.merge Phases.makeunique_model
       Samples.GenericPhases_convert Samples_merge_keeps ["Na"; "Cl"] Samples.water_db []
       "O" (or_intror (or_introl eq_refl)))).
Defined.

Section Overloads.

Import Equilibrium.
Context {C : Collaborators}.

(** X22.  The two shorter forms of [solve] treat the chemical state as the
    full form does: whatever the outcome, temperature, pressure and system
    of the state stay as they were, and a call that throws returns the
    state exactly as it was given. *)
Theorem solve_overloads_keep_state (self : Impl) (state0 : ChemicalState)
    (conditions : EquilibriumConditions) :
  temperature (snd (solve1 self state0)) = temperature state0 /\
  pressure (snd (solve1 self state0)) = pressure state0 /\
  state_system (snd (solve1 self state0)) = state_system state0 /\
  temperature (snd (solve2 self state0 conditions)) = temperature state0 /\
  pressure (snd (solve2 self state0 conditions)) = pressure state0 /\
  state_system (snd (solve2 self state0 conditions)) = state_system state0 /\
  match solve1 self state0 with
  | (Raised _, _, state') => state' = state0
  | (Ok _, _, _) => True
  end /\
  match solve2 self state0 conditions with
  | (Raised _, _, state') => state' = state0
  | (Ok _, _, _) => True
  end.
Proof.
  assert (H2 : forall c,
             (temperature (snd (solve2 self state0 c)) = temperature state0 /\
              pressure (snd (solve2 self state0 c)) = pressure state0 /\
              state_system (snd (solve2 self state0 c)) = state_system state0) /\
             match solve2 self state0 c with
             | (Raised _, _, state') => state' = state0
             | (Ok _, _, _) => True
             end).
  { intros c. unfold solve2.
    pose proof (solve3_state_shape self state0 c (EquilibriumRestrictions_new (system self)))
      as Hshape.
    destruct (solve3 self state0 c (EquilibriumRestrictions_new (system self)))
      as [[[result | e] self'] state']; simpl; subst state'; repeat split. }
  assert (H1 : (temperature (snd (solve1 self state0)) = temperature state0 /\
                pressure (snd (solve1 self state0)) = pressure state0 /\
                state_system (snd (solve1 self state0)) = state_system state0) /\
               match solve1 self state0 with
               | (Raised _, _, state') => state' = state0
               | (Ok _, _, _) => True
               end).
  { unfold solve1.
    destruct (bind _ _) as [c | e]; [apply H2 | repeat split]. }
  destruct H1 as [[Ht [Hp Hs]] Hthrow].
  destruct (H2 conditions) as [[Ht2 [Hp2 Hs2]] Hthrow2].
  repeat split; assumption.
Qed.

End Overloads.
